(** * EnformionGO API wrapper: credential resolver, validation gate, routes

    A shallow embedding of [src/main.py] and [src/config.py].

    - Python values that the handlers test with [if x] or combine with
      [x or d] carry Python's truthiness.
    - [async] handlers become computations in a state-and-exception monad
      over a [World] that records every outbound POST and every log record;
      the upstream service is an oracle that answers each POST.
    - FastAPI's [Header(None, alias=...)] parameters read the inbound header
      map; [Depends(validator)] runs the validator before the handler body. *)

From stdpp Require Import base option strings list gmap pretty.

Set Warnings "-register-all".

Open Scope string_scope.
Open Scope list_scope.
Open Scope Z_scope.

(** ** Python values *)

(** JSON documents: the [dict] bodies that are posted upstream and the
    parsed upstream answers. Objects keep insertion order. Numbers are
    integers here; no claim depends on floating point. *)
Inductive json :=
| JNull
| JBool (b : bool)
| JNumber (z : Z)
| JString (s : string)
| JArray (items : list json)
| JObject (members : list (string * json)).

(** Field values of a pydantic request model instance. A model is the list
    of its declared fields, in declaration order, each with its Python
    attribute name, its declared alias (the attribute name when the field
    declares none) and its current value. The model
    classes themselves ([models.py]) are not part of the sources at hand, so
    an instance is kept generic: any field list is a possible instance. A
    field holds a scalar, a list or a nested model; a field that holds a
    free-form dict is outside this model. *)
Inductive value :=
| VNone
| VBool (b : bool)
| VInt (z : Z)
| VStr (s : string)
| VList (items : list value)
| VModel (fields : list (string * string * value)).

Abbreviation Model := (list (string * string * value)).

(** [bool(v)]: [None], [False], [0], the empty string and the empty list are
    falsy; a pydantic model instance defines neither [__bool__] nor
    [__len__] and is always truthy. *)
Definition truthy (v : value) : bool :=
  match v with
  | VNone => false
  | VBool b => b
  | VInt z => negb (z =? 0)
  | VStr s => negb (String.eqb s EmptyString)
  | VList items => match items with [] => false | _ :: _ => true end
  | VModel _ => true
  end.

(** [request.<name>]: attribute access on a model instance. The request
    classes declare every attribute the validators read; a field list that
    leaves one out stands for an instance where that attribute is [None]. *)
Fixpoint getattr (request : Model) (name : string) : value :=
  match request with
  | [] => VNone
  | (attr, _, v) :: rest => if String.eqb attr name then v else getattr rest name
  end.

(** [model.model_dump(by_alias=True, exclude_none=True)]: every field whose
    value is not [None] is emitted under its alias, nested models
    recursively; list items are dumped in place. *)
Fixpoint dump_value (v : value) : json :=
  match v with
  | VNone => JNull
  | VBool b => JBool b
  | VInt z => JNumber z
  | VStr s => JString s
  | VList items => JArray (map dump_value items)
  | VModel fields =>
      JObject
        ((fix dump_fields (fs : Model) : list (string * json) :=
            match fs with
            | [] => []
            | (_, alias, VNone) :: rest => dump_fields rest
            | (_, alias, x) :: rest => (alias, dump_value x) :: dump_fields rest
            end) fields)
  end.

Fixpoint dump_fields (fs : Model) : list (string * json) :=
  match fs with
  | [] => []
  | (_, alias, VNone) :: rest => dump_fields rest
  | (_, alias, x) :: rest => (alias, dump_value x) :: dump_fields rest
  end.

Definition model_dump (m : Model) : json := JObject (dump_fields m).

(** [str | None] values: header parameters and configured credentials. *)
Definition truthy_str (o : option string) : bool :=
  match o with
  | None => false
  | Some s => negb (String.eqb s EmptyString)
  end.

(** [a or b] on [str | None]. *)
Definition or_else (a b : option string) : option string :=
  if truthy_str a then a else b.

(** [a or "literal"]: the result is always a string. *)
Definition or_default (a : option string) (d : string) : string :=
  match a with
  | Some s => if String.eqb s EmptyString then d else s
  | None => d
  end.

(** ** Configuration ([config.py]) *)

Record Settings := {
  GALAXY_AP_NAME : option string;
  (* SecretStr | None; the carried string is [get_secret_value()] *)
  GALAXY_AP_PASSWORD : option string;
  PERSON_SEARCH_API_URL : string;
  REVERSE_PHONE_API_URL : string;
  CONTACT_ENRICHMENT_API_URL : string;
  CALLER_ID_API_URL : string;
  EMAIL_ID_API_URL : string;
  CONTACT_ID_API_URL : string;
  ADDRESS_ID_API_URL : string;
  ADDRESS_AUTOCOMPLETE_API_URL : string;
  ID_VERIFICATION_API_URL : string;
  CENSUS_SEARCH_API_URL : string;
  DIVORCE_SEARCH_API_URL : string;
  LINKEDIN_ID_API_URL : string;
  PROPERTY_SEARCH_V2_API_URL : string;
  BUSINESS_SEARCH_V2_API_URL : string;
  DOMAIN_SEARCH_API_URL : string;
  WORKPLACE_SEARCH_API_URL : string;
  BUSINESS_ID_API_URL : string;
  CONTACT_ENRICHMENT_PLUS_API_URL : string;
  CONTACT_ID_PLUS_API_URL : string;
  CALLER_ID_PLUS_API_URL : string;
  EMAIL_ID_PLUS_API_URL : string;
  ADDRESS_ID_PLUS_API_URL : string;
  CRIMINAL_SEARCH_V2_API_URL : string;
  DEBT_SEARCH_V2_API_URL : string;
  EVICTION_SEARCH_API_URL : string;
  MARRIAGE_SEARCH_API_URL : string;
  OFAC_SEARCH_API_URL : string;
  PRE_FORECLOSURE_SEARCH_V2_API_URL : string;
  PRO_LICENSE_SEARCH_API_URL : string;
  VEHICLE_OWNERSHIP_SEARCH_API_URL : string;
  ELEADVERIFY_API_URL : string;
  DATA_ALERTS_ADD_SUBSCRIPTION_API_URL : string;
  DATA_ALERTS_REMOVE_SUBSCRIPTION_API_URL : string;
  DATA_ALERTS_GET_SUBSCRIPTION_API_URL : string;
  DATA_ALERTS_COUNT_ALERT_API_URL : string;
  DATA_ALERTS_GET_ALERT_API_URL : string
}.

(** [Settings()] with nothing set in the environment. *)
Definition default_settings : Settings := {|
  GALAXY_AP_NAME := None;
  GALAXY_AP_PASSWORD := None;
  PERSON_SEARCH_API_URL := "https://devapi.enformion.com/PersonSearch";
  REVERSE_PHONE_API_URL := "https://devapi.enformion.com/ReversePhoneSearch";
  CONTACT_ENRICHMENT_API_URL := "https://devapi.enformion.com/Contact/Enrich";
  CALLER_ID_API_URL := "https://devapi.enformion.com/Phone/Enrich";
  EMAIL_ID_API_URL := "https://devapi.enformion.com/Email/Enrich";
  CONTACT_ID_API_URL := "https://devapi.enformion.com/Contact/Id";
  ADDRESS_ID_API_URL := "https://devapi.enformion.com/Address/Id";
  ADDRESS_AUTOCOMPLETE_API_URL := "https://devapi.enformion.com/Address/AutoComplete";
  ID_VERIFICATION_API_URL := "https://devapi.enformion.com/Identity/Verify_Id";
  CENSUS_SEARCH_API_URL := "https://devapi.enformion.com/CensusSearch";
  DIVORCE_SEARCH_API_URL := "https://devapi.enformion.com/DivorceSearch";
  LINKEDIN_ID_API_URL := "https://devapi.enformion.com/LinkedIn/Id";
  PROPERTY_SEARCH_V2_API_URL := "https://devapi.enformion.com/PropertyV2Search";
  BUSINESS_SEARCH_V2_API_URL := "https://devapi.enformion.com/BusinessV2Search";
  DOMAIN_SEARCH_API_URL := "https://devapi.enformion.com/DomainSearch";
  WORKPLACE_SEARCH_API_URL := "https://devapi.enformion.com/WorkplaceSearch";
  BUSINESS_ID_API_URL := "https://devapi.enformion.com/Business/Id";
  CONTACT_ENRICHMENT_PLUS_API_URL := "https://devapi.enformion.com/Contact/EnrichPlus";
  CONTACT_ID_PLUS_API_URL := "https://devapi.enformion.com/Contact/IdPlus";
  CALLER_ID_PLUS_API_URL := "https://devapi.enformion.com/Phone/EnrichPlus";
  EMAIL_ID_PLUS_API_URL := "https://devapi.enformion.com/Email/EnrichPlus";
  ADDRESS_ID_PLUS_API_URL := "https://devapi.enformion.com/Address/IdPlus";
  CRIMINAL_SEARCH_V2_API_URL := "https://devapi.enformion.com/CriminalSearch/V2";
  DEBT_SEARCH_V2_API_URL := "https://devapi.enformion.com/DebtSearch/V2";
  EVICTION_SEARCH_API_URL := "https://devapi.enformion.com/EvictionSearch";
  MARRIAGE_SEARCH_API_URL := "https://devapi.enformion.com/MarriageSearch";
  OFAC_SEARCH_API_URL := "https://devapi.enformion.com/OfacSearch";
  PRE_FORECLOSURE_SEARCH_V2_API_URL := "https://devapi.enformion.com/ForeclosureV2Search";
  PRO_LICENSE_SEARCH_API_URL := "https://devapi.enformion.com/ProLicenseSearch";
  VEHICLE_OWNERSHIP_SEARCH_API_URL := "https://devapi.enformion.com/VehicleRegistrationSearch";
  ELEADVERIFY_API_URL := "https://devapi.enformion.com/eIDV/eLeadVerify";
  DATA_ALERTS_ADD_SUBSCRIPTION_API_URL := "https://devapi.enformion.com/DataAlerts/AddSubscription";
  DATA_ALERTS_REMOVE_SUBSCRIPTION_API_URL := "https://devapi.enformion.com/DataAlerts/RemoveSubscription";
  DATA_ALERTS_GET_SUBSCRIPTION_API_URL := "https://devapi.enformion.com/DataAlerts/GetSubscription";
  DATA_ALERTS_COUNT_ALERT_API_URL := "https://devapi.enformion.com/DataAlerts/CountAlert";
  DATA_ALERTS_GET_ALERT_API_URL := "https://devapi.enformion.com/DataAlerts/GetAlert"
|}.

(** ** Transport, exceptions and the world *)

(** What [client.post(api_url, json=request_body, headers=headers)] is
    given, on a client built with [timeout=15.0] (seconds). [req_headers] is
    the [headers] dict of the call, before the client adds its own. *)
Record OutboundRequest := {
  req_url : string;
  req_json : json;
  req_headers : gmap string string;
  req_timeout : Z
}.

(** [httpx.Response]: the status code and the raw body text. *)
Record Response := {
  status_code : Z;
  text : string
}.

(** How one POST ends. [cause] is [str(exc)] of the httpx exception.
    These are the endings the helper's [except] clauses and its
    [raise_for_status] deal with; an exception of [client.post] that is no
    [httpx.RequestError] (a URL setting that cannot be parsed, a header
    value that cannot be encoded) is not among them. *)
Inductive Outcome :=
| TimedOut (cause : string)
| RequestFailed (cause : string)
| Responded (response : Response).

Inductive Exception :=
(* fastapi *)
| HTTPException (status : Z) (detail : string)
| RequestValidationError (input : string)
(* exceptions.py *)
| APIConnectionError (message : string)
| InvalidRequestError (message : string)
(* httpx: TimeoutException is a RequestError; [RequestError] below stands
   for the request errors that are not timeouts *)
| TimeoutException (cause : string)
| RequestError (cause : string)
| HTTPStatusError (response : Response)
(* json *)
| JSONDecodeError (doc : string).

Inductive Level := DEBUG | INFO | WARNING | ERROR.

Record World := {
  calls : list OutboundRequest;
  log : list (Level * string)
}.

Inductive Result (A : Type) :=
| Return (a : A)
| Raise (e : Exception).
Arguments Return {A} a.
Arguments Raise {A} e.

(** A coroutine: runs in a world, returns or raises, leaves a world. *)
Definition Task (A : Type) : Type := World -> Result A * World.

#[export] Instance Task_ret : MRet Task := fun A a w => (Return a, w).

#[export] Instance Task_bind : MBind Task := fun A B k m w =>
  match m w with
  | (Return a, w') => k a w'
  | (Raise e, w') => (Raise e, w')
  end.

Definition raise {A} (e : Exception) : Task A := fun w => (Raise e, w).

(** [try: body / except ...: handler]; [handler e = None] when no clause
    matches [e], which then propagates. *)
Definition try_except {A} (body : Task A) (handler : Exception -> option (Task A)) : Task A :=
  fun w =>
    match body w with
    | (Return a, w') => (Return a, w')
    | (Raise e, w') =>
        match handler e with
        | Some h => h w'
        | None => (Raise e, w')
        end
    end.

(** [logger.error(msg)] *)
Definition logger_error (msg : string) : Task unit :=
  fun w => (Return tt, {| calls := calls w; log := log w ++ [(ERROR, msg)] |}).

(** [response.raise_for_status()]: httpx raises unless [is_success],
    that is unless [200 <= status_code <= 299]. *)
Definition raise_for_status (response : Response) : Task unit :=
  if (200 <=? status_code response) && (status_code response <=? 299)
  then mret tt
  else raise (HTTPStatusError response).

(** A [str | None] already checked to be a string. *)
Definition str_of (o : option string) : string := default EmptyString o.

Definition credentials_message : string :=
  "API credentials are not configured. Provide (GALAXY_AP_NAME, GALAXY_AP_PASSWORD) via env/.env, "
  +:+ "or pass them as request headers (galaxy-ap-name, galaxy-ap-password).".

Definition upstream_failed_message : string :=
  "The request to the upstream service failed.".

(** [class PersonSearchType(str, Enum)] *)
Inductive PersonSearchType := person | teaser.

Definition PersonSearchType_value (t : PersonSearchType) : string :=
  match t with
  | person => "Person"
  | teaser => "Teaser"
  end.

(** FastAPI's resolution of
    [galaxy_search_type: PersonSearchType = Header(PersonSearchType.person, ...)]:
    the default when the header is missing, the member whose value the
    header carries, a validation error (422) for any other string. *)
Definition PersonSearchType_header (h : option string) : Task PersonSearchType :=
  match h with
  | None => mret person
  | Some s =>
      if String.eqb s "Person" then mret person
      else if String.eqb s "Teaser" then mret teaser
      else raise (RequestValidationError s)
  end.

(** ** Validation dependencies *)

Definition contact_enrichment_detail : string :=
  "Contact Enrichment requires at least two search criteria from: Name, Phone, Address, or Email.".

Definition id_verification_detail : string :=
  "ID Verification requires at least two criteria from: SSN, Name, Phone, Address, or Email.".

Definition validate_contact_enrichment_request (request : Model) : Task Model :=
  let criteria_count := 0 in
  (* A name counts as one criterion *)
  let criteria_count :=
    if truthy (getattr request "first_name")
       || truthy (getattr request "middle_name")
       || truthy (getattr request "last_name")
    then criteria_count + 1 else criteria_count in
  let criteria_count :=
    if truthy (getattr request "phone") then criteria_count + 1 else criteria_count in
  let criteria_count :=
    if truthy (getattr request "address") then criteria_count + 1 else criteria_count in
  let criteria_count :=
    if truthy (getattr request "email") then criteria_count + 1 else criteria_count in
  if criteria_count <? 2 then
    raise (HTTPException 400 contact_enrichment_detail)
  else mret request.

Definition validate_id_verification_request (request : Model) : Task Model :=
  let criteria_count := 0 in
  let criteria_count :=
    if truthy (getattr request "first_name")
       || truthy (getattr request "middle_name")
       || truthy (getattr request "last_name")
    then criteria_count + 1 else criteria_count in
  let criteria_count :=
    if truthy (getattr request "phones") then criteria_count + 1 else criteria_count in
  let criteria_count :=
    if truthy (getattr request "address_line_1") || truthy (getattr request "address_line_2")
    then criteria_count + 1 else criteria_count in
  let criteria_count :=
    if truthy (getattr request "emails") then criteria_count + 1 else criteria_count in
  let criteria_count :=
    if truthy (getattr request "ssn") then criteria_count + 1 else criteria_count in
  if criteria_count <? 2 then
    raise (HTTPException 400 id_verification_detail)
  else mret request.

(** ** Vocabulary of the statements *)

(** Two-tier resolution of one credential: the per-call override when it is
    supplied (a non-empty string), otherwise the configured default when
    that is set (a non-empty string), otherwise nothing. *)
Definition resolve_credential (override default : option string) : option string :=
  match override with
  | Some (String c s) => Some (String c s)
  | _ =>
      match default with
      | Some (String c s) => Some (String c s)
      | _ => None
      end
  end.

(** The header set of lines 118-128 of [main.py], for resolved credentials. *)
Definition outbound_headers (ap_name ap_password search_type : string)
    (galaxy_client_session_id galaxy_client_type : option string) : gmap string string :=
  let headers : gmap string string :=
    {[ "galaxy-ap-name" := ap_name;
       "galaxy-ap-password" := ap_password;
       "galaxy-search-type" := search_type;
       "Content-Type" := "application/json" ]} in
  let headers :=
    if truthy_str galaxy_client_session_id
    then <["galaxy-client-session-id" := str_of galaxy_client_session_id]> headers
    else headers in
  if truthy_str galaxy_client_type
  then <["galaxy-client-type" := str_of galaxy_client_type]> headers
  else headers.

Definition is_success (response : Response) : bool :=
  (200 <=? status_code response) && (status_code response <=? 299).

(** [sub] occurs in [s]. *)
Definition mentions (s sub : string) : Prop :=
  exists before after, s = before +:+ sub +:+ after.

(** The criteria groups of the two rules, one flag per group, and the
    number of populated groups. *)
Definition contact_enrichment_groups (request : Model) : list bool :=
  [ truthy (getattr request "first_name")
    || truthy (getattr request "middle_name")
    || truthy (getattr request "last_name");
    truthy (getattr request "phone");
    truthy (getattr request "address");
    truthy (getattr request "email") ].

Definition id_verification_groups (request : Model) : list bool :=
  [ truthy (getattr request "first_name")
    || truthy (getattr request "middle_name")
    || truthy (getattr request "last_name");
    truthy (getattr request "phones");
    truthy (getattr request "address_line_1") || truthy (getattr request "address_line_2");
    truthy (getattr request "emails");
    truthy (getattr request "ssn") ].

Fixpoint populated (groups : list bool) : nat :=
  match groups with
  | [] => 0%nat
  | true :: rest => S (populated rest)
  | false :: rest => populated rest
  end.

(** Sample requests. *)
Definition empty_request : Model := [].

Definition name_only : Model :=
  [ ("first_name", "FirstName", VStr "Ada");
    ("last_name", "LastName", VStr "Lovelace") ].

Definition name_and_phone : Model :=
  [ ("first_name", "FirstName", VStr "Ada");
    ("phone", "Phone", VStr "5550100") ].

Definition phone_address_email : Model :=
  [ ("phone", "Phone", VStr "5550100");
    ("address", "Address", VModel [("address_line_1", "addressLine1", VStr "1 Main St")]);
    ("email", "Email", VStr "ada@example.org") ].

Definition ssn_only : Model :=
  [ ("ssn", "Ssn", VStr "123456789") ].

Definition ssn_and_phone : Model :=
  [ ("ssn", "Ssn", VStr "123456789");
    ("phones", "Phones", VList [VStr "5550100"]) ].

Definition name_and_email : Model :=
  [ ("middle_name", "MiddleName", VStr "King");
    ("emails", "Emails", VList [VStr "ada@example.org"]) ].

(** The five override headers of the inbound contract. *)
Definition override_headers : list string :=
  [ "galaxy-ap-name"; "galaxy-ap-password"; "galaxy-client-session-id";
    "galaxy-client-type"; "galaxy-search-type" ].

Definition is_none (v : value) : bool :=
  match v with
  | VNone => true
  | _ => false
  end.

(** The settings with their two credentials replaced, every URL kept. *)
Definition set_credentials (settings : Settings) (name password : option string) : Settings := {|
  GALAXY_AP_NAME := name;
  GALAXY_AP_PASSWORD := password;
  PERSON_SEARCH_API_URL := PERSON_SEARCH_API_URL settings;
  REVERSE_PHONE_API_URL := REVERSE_PHONE_API_URL settings;
  CONTACT_ENRICHMENT_API_URL := CONTACT_ENRICHMENT_API_URL settings;
  CALLER_ID_API_URL := CALLER_ID_API_URL settings;
  EMAIL_ID_API_URL := EMAIL_ID_API_URL settings;
  CONTACT_ID_API_URL := CONTACT_ID_API_URL settings;
  ADDRESS_ID_API_URL := ADDRESS_ID_API_URL settings;
  ADDRESS_AUTOCOMPLETE_API_URL := ADDRESS_AUTOCOMPLETE_API_URL settings;
  ID_VERIFICATION_API_URL := ID_VERIFICATION_API_URL settings;
  CENSUS_SEARCH_API_URL := CENSUS_SEARCH_API_URL settings;
  DIVORCE_SEARCH_API_URL := DIVORCE_SEARCH_API_URL settings;
  LINKEDIN_ID_API_URL := LINKEDIN_ID_API_URL settings;
  PROPERTY_SEARCH_V2_API_URL := PROPERTY_SEARCH_V2_API_URL settings;
  BUSINESS_SEARCH_V2_API_URL := BUSINESS_SEARCH_V2_API_URL settings;
  DOMAIN_SEARCH_API_URL := DOMAIN_SEARCH_API_URL settings;
  WORKPLACE_SEARCH_API_URL := WORKPLACE_SEARCH_API_URL settings;
  BUSINESS_ID_API_URL := BUSINESS_ID_API_URL settings;
  CONTACT_ENRICHMENT_PLUS_API_URL := CONTACT_ENRICHMENT_PLUS_API_URL settings;
  CONTACT_ID_PLUS_API_URL := CONTACT_ID_PLUS_API_URL settings;
  CALLER_ID_PLUS_API_URL := CALLER_ID_PLUS_API_URL settings;
  EMAIL_ID_PLUS_API_URL := EMAIL_ID_PLUS_API_URL settings;
  ADDRESS_ID_PLUS_API_URL := ADDRESS_ID_PLUS_API_URL settings;
  CRIMINAL_SEARCH_V2_API_URL := CRIMINAL_SEARCH_V2_API_URL settings;
  DEBT_SEARCH_V2_API_URL := DEBT_SEARCH_V2_API_URL settings;
  EVICTION_SEARCH_API_URL := EVICTION_SEARCH_API_URL settings;
  MARRIAGE_SEARCH_API_URL := MARRIAGE_SEARCH_API_URL settings;
  OFAC_SEARCH_API_URL := OFAC_SEARCH_API_URL settings;
  PRE_FORECLOSURE_SEARCH_V2_API_URL := PRE_FORECLOSURE_SEARCH_V2_API_URL settings;
  PRO_LICENSE_SEARCH_API_URL := PRO_LICENSE_SEARCH_API_URL settings;
  VEHICLE_OWNERSHIP_SEARCH_API_URL := VEHICLE_OWNERSHIP_SEARCH_API_URL settings;
  ELEADVERIFY_API_URL := ELEADVERIFY_API_URL settings;
  DATA_ALERTS_ADD_SUBSCRIPTION_API_URL := DATA_ALERTS_ADD_SUBSCRIPTION_API_URL settings;
  DATA_ALERTS_REMOVE_SUBSCRIPTION_API_URL := DATA_ALERTS_REMOVE_SUBSCRIPTION_API_URL settings;
  DATA_ALERTS_GET_SUBSCRIPTION_API_URL := DATA_ALERTS_GET_SUBSCRIPTION_API_URL settings;
  DATA_ALERTS_COUNT_ALERT_API_URL := DATA_ALERTS_COUNT_ALERT_API_URL settings;
  DATA_ALERTS_GET_ALERT_API_URL := DATA_ALERTS_GET_ALERT_API_URL settings
|}.

(** The number of members of an object; [0] for any other document. *)
Definition members (j : json) : nat :=
  match j with
  | JObject ms => length ms
  | _ => 0%nat
  end.

(** The six header names the helper ever sends. *)
Definition outbound_header_names : gset string :=
  {[ "galaxy-ap-name"; "galaxy-ap-password"; "galaxy-search-type"; "Content-Type";
     "galaxy-client-session-id"; "galaxy-client-type" ]}.

(** ** Request classes and the caller's JSON *)

(** Modelled from the spec: the request classes of [models.py], which is
    not among the sources. The spec speaks of schema-validated structured
    requests whose fields are optional and forwarded under their declared
    aliases; a class is taken here as the list of its declared fields, in
    declaration order, each with its attribute name, its alias and the kind
    of value it holds: a scalar, a list, or an object of a nested class.
    Fields that hold a free-form dict are outside this model. *)
Inductive FieldType :=
| Scalar
| ListOf (item : FieldType)
| Nested (fields : list (string * string * FieldType)).

Abbreviation Class := (list (string * string * FieldType)).

Definition aliases (cls : Class) : list string := map (fun f => f.1.2) cls.

(** [d.get(k)] on the members of a JSON object. *)
Fixpoint member {A : Type} (k : string) (ms : list (string * A)) : option A :=
  match ms with
  | [] => None
  | (k', x) :: rest => if String.eqb k' k then Some x else member k rest
  end.

(** Modelled from the spec: validation of the caller's JSON against a
    class. Every declared field is optional: it takes the caller's value
    under the field's alias, and is [None] when the caller left it out or
    sent [null]. A scalar is taken as sent (type checks and coercions
    between scalar types are not modelled); a list or an object where the
    class declares something else is refused; members the class does not
    declare are ignored. *)
Fixpoint validate_value (ty : FieldType) (j : json) {struct ty} : option value :=
  match ty, j with
  | _, JNull => Some VNone
  | Scalar, JBool b => Some (VBool b)
  | Scalar, JNumber z => Some (VInt z)
  | Scalar, JString s => Some (VStr s)
  | ListOf t, JArray items =>
      match
        (fix each (items : list json) : option (list value) :=
           match items with
           | [] => Some []
           | x :: rest =>
               match validate_value t x, each rest with
               | Some v, Some vs => Some (v :: vs)
               | _, _ => None
               end
           end) items
      with
      | Some vs => Some (VList vs)
      | None => None
      end
  | Nested fs, JObject ms =>
      match
        (fix fields (fs : Class) : option Model :=
           match fs with
           | [] => Some []
           | (attr, alias, t) :: rest =>
               match
                 match member alias ms with
                 | Some x => validate_value t x
                 | None => Some VNone
                 end,
                 fields rest
               with
               | Some v, Some m => Some ((attr, alias, v) :: m)
               | _, _ => None
               end
           end) fs
      with
      | Some m => Some (VModel m)
      | None => None
      end
  | _, _ => None
  end.

Definition validate_items (t : FieldType) : list json -> option (list value) :=
  fix each (items : list json) : option (list value) :=
    match items with
    | [] => Some []
    | x :: rest =>
        match validate_value t x, each rest with
        | Some v, Some vs => Some (v :: vs)
        | _, _ => None
        end
    end.

(** [Model.model_validate(body)] for a class and the members of the body. *)
Definition model_validate (cls : Class) (ms : list (string * json)) : option Model :=
  (fix fields (fs : Class) : option Model :=
     match fs with
     | [] => Some []
     | (attr, alias, t) :: rest =>
         match
           match member alias ms with
           | Some x => validate_value t x
           | None => Some VNone
           end,
           fields rest
         with
         | Some v, Some m => Some ((attr, alias, v) :: m)
         | _, _ => None
         end
     end) cls.

(** Following the claim's words as amended, "the caller's input JSON with
    null or absent optional fields removed": no member of an object is
    [null]; everything else is as the caller sent it. *)
Fixpoint without_nulls (j : json) : json :=
  match j with
  | JArray items => JArray (map without_nulls items)
  | JObject ms =>
      JObject
        ((fix strip (ms : list (string * json)) : list (string * json) :=
            match ms with
            | [] => []
            | (k, JNull) :: rest => strip rest
            | (k, x) :: rest => (k, without_nulls x) :: strip rest
            end) ms)
  | _ => j
  end.

Fixpoint strip_nulls (ms : list (string * json)) : list (string * json) :=
  match ms with
  | [] => []
  | (k, JNull) :: rest => strip_nulls rest
  | (k, x) :: rest => (k, without_nulls x) :: strip_nulls rest
  end.

(** Following the claim's words as written, "the caller's input JSON with
    empty/absent optional fields removed": a member stays only when it is
    populated, so [null], the empty string and the empty list go. *)
Definition is_empty (j : json) : bool :=
  match j with
  | JNull => true
  | JString EmptyString => true
  | JArray [] => true
  | _ => false
  end.

Fixpoint without_empty (j : json) : json :=
  match j with
  | JArray items => JArray (map without_empty items)
  | JObject ms =>
      JObject
        ((fix strip (ms : list (string * json)) : list (string * json) :=
            match ms with
            | [] => []
            | (k, x) :: rest =>
                if is_empty x then strip rest else (k, without_empty x) :: strip rest
            end) ms)
  | _ => j
  end.

(** Equality of JSON documents as Python compares the parsed values: the
    members of an object are compared by key, their order does not count. *)
Inductive json_same : json -> json -> Prop :=
| same_null : json_same JNull JNull
| same_bool b : json_same (JBool b) (JBool b)
| same_number z : json_same (JNumber z) (JNumber z)
| same_string s : json_same (JString s) (JString s)
| same_array xs ys : Forall2 json_same xs ys -> json_same (JArray xs) (JArray ys)
| same_object ms ns :
    (forall k, option_Forall2 json_same (member k ms) (member k ns)) ->
    json_same (JObject ms) (JObject ns).

(** The caller's JSON fits a class: at every object the keys are distinct
    and are aliases the class declares, and the class declares no alias
    twice. *)
Fixpoint conforms (ty : FieldType) (j : json) {struct ty} : Prop :=
  match ty, j with
  | ListOf t, JArray items =>
      (fix all (items : list json) : Prop :=
         match items with
         | [] => True
         | x :: rest => conforms t x /\ all rest
         end) items
  | Nested fs, JObject ms =>
      NoDup ms.*1 /\ NoDup (aliases fs) /\
      (forall k, k ∈ ms.*1 -> k ∈ aliases fs) /\
      (fix each (fs : Class) : Prop :=
         match fs with
         | [] => True
         | (_, alias, t) :: rest =>
             match member alias ms with
             | Some x => conforms t x
             | None => True
             end /\ each rest
         end) fs
  | _, _ => True
  end.

Definition fields_conform (cls : Class) (ms : list (string * json)) : Prop :=
  (fix each (fs : Class) : Prop :=
     match fs with
     | [] => True
     | (_, alias, t) :: rest =>
         match member alias ms with
         | Some x => conforms t x
         | None => True
         end /\ each rest
     end) cls.

(** The body is a JSON object. *)
Definition is_object (j : json) : Prop := exists ms, j = JObject ms.

(** The validation a route runs on the parsed request before the handler
    body: the two [Depends(...)] validators, nothing on the other routes. *)
Definition route_gate (path : string) (m : Model) : bool :=
  if String.eqb path "/contact-enrichment"
  then (2 <=? populated (contact_enrichment_groups m))%nat
  else if String.eqb path "/id-verification"
  then (2 <=? populated (id_verification_groups m))%nat
  else true.

(** On [/person-search] the search type is an enum header: it has to be
    missing or one of the two members. *)
Definition search_type_accepted (path : string) (inbound : gmap string string) : Prop :=
  path = "/person-search" ->
  inbound !! "galaxy-search-type" = None \/
  inbound !! "galaxy-search-type" = Some "Person" \/
  inbound !! "galaxy-search-type" = Some "Teaser".

(** ** Stub collaborators, for running the handlers on concrete inputs *)

(** A JSON reader that knows three documents and rejects everything else. *)
Definition stub_json_loads (doc : string) : option json :=
  if String.eqb doc "{}" then Some (JObject [])
  else if String.eqb doc "null" then Some JNull
  else if String.eqb doc "[1]" then Some (JArray [JNumber 1])
  else None.

(** An upstream that gives the same outcome to every POST. *)
Definition stub_upstream (outcome : Outcome) : list OutboundRequest -> OutboundRequest -> Outcome :=
  fun _ _ => outcome.

Definition empty_world : World := {| calls := []; log := [] |}.

(** An upstream that answers every POST with 200 and an empty object. *)
Definition upstream_ok : list OutboundRequest -> OutboundRequest -> Outcome :=
  stub_upstream (Responded {| status_code := 200; text := "{}" |}).

(** Credentials sent as request headers. *)
Definition credential_headers : gmap string string :=
  {[ "galaxy-ap-name" := "acct"; "galaxy-ap-password" := "s3cret" ]}.

(** A caller-id request with one field set and one left out. *)
Definition phone_without_type : Model :=
  [ ("phone", "Phone", VStr "5550100"); ("phone_type", "PhoneType", VNone) ].

Definition configured (name password : string) : Settings := {|
  GALAXY_AP_NAME := Some name;
  GALAXY_AP_PASSWORD := Some password;
  PERSON_SEARCH_API_URL := PERSON_SEARCH_API_URL default_settings;
  REVERSE_PHONE_API_URL := REVERSE_PHONE_API_URL default_settings;
  CONTACT_ENRICHMENT_API_URL := CONTACT_ENRICHMENT_API_URL default_settings;
  CALLER_ID_API_URL := CALLER_ID_API_URL default_settings;
  EMAIL_ID_API_URL := EMAIL_ID_API_URL default_settings;
  CONTACT_ID_API_URL := CONTACT_ID_API_URL default_settings;
  ADDRESS_ID_API_URL := ADDRESS_ID_API_URL default_settings;
  ADDRESS_AUTOCOMPLETE_API_URL := ADDRESS_AUTOCOMPLETE_API_URL default_settings;
  ID_VERIFICATION_API_URL := ID_VERIFICATION_API_URL default_settings;
  CENSUS_SEARCH_API_URL := CENSUS_SEARCH_API_URL default_settings;
  DIVORCE_SEARCH_API_URL := DIVORCE_SEARCH_API_URL default_settings;
  LINKEDIN_ID_API_URL := LINKEDIN_ID_API_URL default_settings;
  PROPERTY_SEARCH_V2_API_URL := PROPERTY_SEARCH_V2_API_URL default_settings;
  BUSINESS_SEARCH_V2_API_URL := BUSINESS_SEARCH_V2_API_URL default_settings;
  DOMAIN_SEARCH_API_URL := DOMAIN_SEARCH_API_URL default_settings;
  WORKPLACE_SEARCH_API_URL := WORKPLACE_SEARCH_API_URL default_settings;
  BUSINESS_ID_API_URL := BUSINESS_ID_API_URL default_settings;
  CONTACT_ENRICHMENT_PLUS_API_URL := CONTACT_ENRICHMENT_PLUS_API_URL default_settings;
  CONTACT_ID_PLUS_API_URL := CONTACT_ID_PLUS_API_URL default_settings;
  CALLER_ID_PLUS_API_URL := CALLER_ID_PLUS_API_URL default_settings;
  EMAIL_ID_PLUS_API_URL := EMAIL_ID_PLUS_API_URL default_settings;
  ADDRESS_ID_PLUS_API_URL := ADDRESS_ID_PLUS_API_URL default_settings;
  CRIMINAL_SEARCH_V2_API_URL := CRIMINAL_SEARCH_V2_API_URL default_settings;
  DEBT_SEARCH_V2_API_URL := DEBT_SEARCH_V2_API_URL default_settings;
  EVICTION_SEARCH_API_URL := EVICTION_SEARCH_API_URL default_settings;
  MARRIAGE_SEARCH_API_URL := MARRIAGE_SEARCH_API_URL default_settings;
  OFAC_SEARCH_API_URL := OFAC_SEARCH_API_URL default_settings;
  PRE_FORECLOSURE_SEARCH_V2_API_URL := PRE_FORECLOSURE_SEARCH_V2_API_URL default_settings;
  PRO_LICENSE_SEARCH_API_URL := PRO_LICENSE_SEARCH_API_URL default_settings;
  VEHICLE_OWNERSHIP_SEARCH_API_URL := VEHICLE_OWNERSHIP_SEARCH_API_URL default_settings;
  ELEADVERIFY_API_URL := ELEADVERIFY_API_URL default_settings;
  DATA_ALERTS_ADD_SUBSCRIPTION_API_URL := DATA_ALERTS_ADD_SUBSCRIPTION_API_URL default_settings;
  DATA_ALERTS_REMOVE_SUBSCRIPTION_API_URL := DATA_ALERTS_REMOVE_SUBSCRIPTION_API_URL default_settings;
  DATA_ALERTS_GET_SUBSCRIPTION_API_URL := DATA_ALERTS_GET_SUBSCRIPTION_API_URL default_settings;
  DATA_ALERTS_COUNT_ALERT_API_URL := DATA_ALERTS_COUNT_ALERT_API_URL default_settings;
  DATA_ALERTS_GET_ALERT_API_URL := DATA_ALERTS_GET_ALERT_API_URL default_settings
|}.


(** Modelled from the spec: a class for the contact-enrichment request,
    with the criteria fields the validator reads (three name parts, phone,
    address, email). *)
Definition ContactEnrichmentRequest_class : Class :=
  [ ("first_name", "FirstName", Scalar);
    ("middle_name", "MiddleName", Scalar);
    ("last_name", "LastName", Scalar);
    ("phone", "Phone", Scalar);
    ("address", "Address",
       Nested [ ("address_line_1", "addressLine1", Scalar);
                ("address_line_2", "addressLine2", Scalar) ]);
    ("email", "Email", Scalar) ].

Definition stub_models (name : string) : Class :=
  if String.eqb name "ContactEnrichmentRequest" then ContactEnrichmentRequest_class
  else [].

(** What a caller sends to [/contact-enrichment]: a phone, a first name
    and a middle name that is [null], in an order of the caller's own. *)
Definition phone_then_name_input : list (string * json) :=
  [ ("Phone", JString "5550100");
    ("FirstName", JString "Ada");
    ("MiddleName", JNull) ].

(** What a caller sends to [/contact-enrichment]: a blank first name, a
    phone and an email. *)
Definition blank_first_name_input : list (string * json) :=
  [ ("FirstName", JString EmptyString);
    ("Phone", JString "5550100");
    ("Email", JString "ada@example.org") ].

(** ** Inbound requests *)

(** FastAPI's [Header(None, alias=...)] for a [str | None] parameter: the
    value of the inbound header of that name, [None] when the request does
    not carry it. Header names are matched case-insensitively; the inbound
    map is keyed by the lower-cased names. *)
Definition Header (inbound : gmap string string) (alias : string) : option string :=
  inbound !! alias.

(** A handler either takes a request parsed into a declared model class
    (schema-backed), or the JSON object as it came ([dict[str, Any]]). What
    FastAPI does with a body before the handler is called, a body that is
    no JSON object included, is [serve] below. *)
Inductive Endpoint :=
| SchemaBacked (model_class : string)
    (handler : Model -> Settings -> gmap string string -> Task json)
| OpenPayload
    (handler : json -> Settings -> gmap string string -> Task json).

Section Resolver.

(** The upstream service: the outcome of a POST, given the POSTs issued
    before it. *)
Variable upstream : list OutboundRequest -> OutboundRequest -> Outcome.

(** [json.loads], as [response.json()] applies it to the body text;
    [None] when the text is not JSON. *)
Variable json_loads : string -> option json.

(** [await client.post(api_url, json=request_body, headers=headers)] on
    [httpx.AsyncClient(timeout=15.0)]. *)
Definition client_post (api_url : string) (request_body : json)
    (headers : gmap string string) : Task Response :=
  fun w =>
    let request := {| req_url := api_url; req_json := request_body;
                      req_headers := headers; req_timeout := 15 |} in
    let w' := {| calls := calls w ++ [request]; log := log w |} in
    match upstream (calls w) request with
    | TimedOut cause => (Raise (TimeoutException cause), w')
    | RequestFailed cause => (Raise (RequestError cause), w')
    | Responded response => (Return response, w')
    end.

(** [response.json()] *)
Definition response_json (response : Response) : Task json :=
  match json_loads (text response) with
  | Some j => mret j
  | None => raise (JSONDecodeError (text response))
  end.

(** Generic helper to call the EnformionGO API. *)
Definition call_enformion_api (api_url search_type : string) (request_body : json)
    (settings : Settings)
    (galaxy_ap_name galaxy_ap_password
     galaxy_client_session_id galaxy_client_type : option string) : Task json :=
  let ap_name := or_else galaxy_ap_name (GALAXY_AP_NAME settings) in
  let ap_password :=
    or_else galaxy_ap_password
      (if truthy_str (GALAXY_AP_PASSWORD settings)
       then GALAXY_AP_PASSWORD settings else None) in
  if negb (truthy_str ap_name) || negb (truthy_str ap_password) then
    raise (APIConnectionError credentials_message)
  else
    let headers : gmap string string :=
      {[ "galaxy-ap-name" := str_of ap_name;
         "galaxy-ap-password" := str_of ap_password;
         "galaxy-search-type" := search_type;
         "Content-Type" := "application/json" ]} in
    let headers :=
      if truthy_str galaxy_client_session_id
      then <["galaxy-client-session-id" := str_of galaxy_client_session_id]> headers
      else headers in
    let headers :=
      if truthy_str galaxy_client_type
      then <["galaxy-client-type" := str_of galaxy_client_type]> headers
      else headers in
    response ←
      try_except
        (response ← client_post api_url request_body headers;
         _ ← raise_for_status response;
         mret response)
        (fun exc =>
           match exc with
           | TimeoutException cause =>
               Some (raise (APIConnectionError
                 ("Request to EnformionGO API timed out: " +:+ cause)))
           | RequestError cause =>
               Some (raise (APIConnectionError
                 ("Error communicating with EnformionGO API: " +:+ cause)))
           | HTTPStatusError r =>
               Some (_ ← logger_error
                       ("Invalid request to EnformionGO API. Status: "
                        +:+ pretty (status_code r) +:+ ", Response: " +:+ text r);
                     raise (InvalidRequestError upstream_failed_message))
           | _ => None
           end);
    response_json response.

(** ** Endpoints *)

(** [POST /contact-enrichment]: Performs a contact enrichment search. Requires at least two criteria. *)
Definition contact_enrichment (search_request : Model) (settings : Settings)
    (inbound : gmap string string) : Task json :=
  search_request ← validate_contact_enrichment_request search_request;
  let galaxy_ap_name := Header inbound "galaxy-ap-name" in
  let galaxy_ap_password := Header inbound "galaxy-ap-password" in
  let galaxy_client_session_id := Header inbound "galaxy-client-session-id" in
  let galaxy_client_type := Header inbound "galaxy-client-type" in
  let galaxy_search_type := Header inbound "galaxy-search-type" in
  let request_body := model_dump search_request in
  call_enformion_api
    (CONTACT_ENRICHMENT_API_URL settings)
    (or_default galaxy_search_type "DevAPIContactEnrich")
    request_body
    settings
    galaxy_ap_name galaxy_ap_password galaxy_client_session_id galaxy_client_type.

(** [POST /caller-id]: Retrieves information associated with a provided phone number. *)
Definition caller_id (search_request : Model) (settings : Settings)
    (inbound : gmap string string) : Task json :=
  let galaxy_ap_name := Header inbound "galaxy-ap-name" in
  let galaxy_ap_password := Header inbound "galaxy-ap-password" in
  let galaxy_client_session_id := Header inbound "galaxy-client-session-id" in
  let galaxy_client_type := Header inbound "galaxy-client-type" in
  let galaxy_search_type := Header inbound "galaxy-search-type" in
  let request_body := model_dump search_request in
  call_enformion_api
    (CALLER_ID_API_URL settings)
    (or_default galaxy_search_type "DevAPICallerID")
    request_body
    settings
    galaxy_ap_name galaxy_ap_password galaxy_client_session_id galaxy_client_type.

(** [POST /email-id]: Retrieves information associated with a provided email address. *)
Definition email_id (search_request : Model) (settings : Settings)
    (inbound : gmap string string) : Task json :=
  let galaxy_ap_name := Header inbound "galaxy-ap-name" in
  let galaxy_ap_password := Header inbound "galaxy-ap-password" in
  let galaxy_client_session_id := Header inbound "galaxy-client-session-id" in
  let galaxy_client_type := Header inbound "galaxy-client-type" in
  let galaxy_search_type := Header inbound "galaxy-search-type" in
  let request_body := model_dump search_request in
  call_enformion_api
    (EMAIL_ID_API_URL settings)
    (or_default galaxy_search_type "DevAPIEmailID")
    request_body
    settings
    galaxy_ap_name galaxy_ap_password galaxy_client_session_id galaxy_client_type.

(** [POST /contact-id]: Searches for contact information using a unique person ID. *)
Definition contact_id (search_request : Model) (settings : Settings)
    (inbound : gmap string string) : Task json :=
  let galaxy_ap_name := Header inbound "galaxy-ap-name" in
  let galaxy_ap_password := Header inbound "galaxy-ap-password" in
  let galaxy_client_session_id := Header inbound "galaxy-client-session-id" in
  let galaxy_client_type := Header inbound "galaxy-client-type" in
  let galaxy_search_type := Header inbound "galaxy-search-type" in
  let request_body := model_dump search_request in
  call_enformion_api
    (CONTACT_ID_API_URL settings)
    (or_default galaxy_search_type "DevAPIContactID")
    request_body
    settings
    galaxy_ap_name galaxy_ap_password galaxy_client_session_id galaxy_client_type.

(** [POST /address-id]: Finds contact info for current owners or residents of a property. *)
Definition address_id (search_request : Model) (settings : Settings)
    (inbound : gmap string string) : Task json :=
  let galaxy_ap_name := Header inbound "galaxy-ap-name" in
  let galaxy_ap_password := Header inbound "galaxy-ap-password" in
  let galaxy_client_session_id := Header inbound "galaxy-client-session-id" in
  let galaxy_client_type := Header inbound "galaxy-client-type" in
  let galaxy_search_type := Header inbound "galaxy-search-type" in
  let request_body := model_dump search_request in
  call_enformion_api
    (ADDRESS_ID_API_URL settings)
    (or_default galaxy_search_type "DevAPIAddressID")
    request_body
    settings
    galaxy_ap_name galaxy_ap_password galaxy_client_session_id galaxy_client_type.

(** [POST /address-autocomplete]: Provides address autocomplete functionality. *)
Definition address_autocomplete (search_request : Model) (settings : Settings)
    (inbound : gmap string string) : Task json :=
  let galaxy_ap_name := Header inbound "galaxy-ap-name" in
  let galaxy_ap_password := Header inbound "galaxy-ap-password" in
  let galaxy_client_session_id := Header inbound "galaxy-client-session-id" in
  let galaxy_client_type := Header inbound "galaxy-client-type" in
  let galaxy_search_type := Header inbound "galaxy-search-type" in
  let request_body := model_dump search_request in
  call_enformion_api
    (ADDRESS_AUTOCOMPLETE_API_URL settings)
    (or_default galaxy_search_type "AddressSearch")
    request_body
    settings
    galaxy_ap_name galaxy_ap_password galaxy_client_session_id galaxy_client_type.

(** [POST /person-search]: Performs a person search by proxying the request to the EnformionGO API. *)
Definition person_search (search_request : Model) (settings : Settings)
    (inbound : gmap string string) : Task json :=
  galaxy_search_type ← PersonSearchType_header (Header inbound "galaxy-search-type");
  let galaxy_ap_name := Header inbound "galaxy-ap-name" in
  let galaxy_ap_password := Header inbound "galaxy-ap-password" in
  let galaxy_client_session_id := Header inbound "galaxy-client-session-id" in
  let galaxy_client_type := Header inbound "galaxy-client-type" in
  let request_body := model_dump search_request in
  call_enformion_api
    (PERSON_SEARCH_API_URL settings)
    (PersonSearchType_value galaxy_search_type)
    request_body
    settings
    galaxy_ap_name galaxy_ap_password galaxy_client_session_id galaxy_client_type.

(** [POST /reverse-phone-search]: Performs a reverse phone search by proxying the request to the EnformionGO API. *)
Definition reverse_phone_search (search_request : Model) (settings : Settings)
    (inbound : gmap string string) : Task json :=
  let galaxy_ap_name := Header inbound "galaxy-ap-name" in
  let galaxy_ap_password := Header inbound "galaxy-ap-password" in
  let galaxy_client_session_id := Header inbound "galaxy-client-session-id" in
  let galaxy_client_type := Header inbound "galaxy-client-type" in
  let galaxy_search_type := Header inbound "galaxy-search-type" in
  let request_body := model_dump search_request in
  call_enformion_api
    (REVERSE_PHONE_API_URL settings)
    (or_default galaxy_search_type "ReversePhoneSearch")
    request_body
    settings
    galaxy_ap_name galaxy_ap_password galaxy_client_session_id galaxy_client_type.

(** [POST /id-verification]: Provides an identity score and verification flag. Requires at least two criteria. *)
Definition id_verification (search_request : Model) (settings : Settings)
    (inbound : gmap string string) : Task json :=
  search_request ← validate_id_verification_request search_request;
  let galaxy_ap_name := Header inbound "galaxy-ap-name" in
  let galaxy_ap_password := Header inbound "galaxy-ap-password" in
  let galaxy_client_session_id := Header inbound "galaxy-client-session-id" in
  let galaxy_client_type := Header inbound "galaxy-client-type" in
  let galaxy_search_type := Header inbound "galaxy-search-type" in
  let request_body := model_dump search_request in
  call_enformion_api
    (ID_VERIFICATION_API_URL settings)
    (or_default galaxy_search_type "DevAPIIDVerification")
    request_body
    settings
    galaxy_ap_name galaxy_ap_password galaxy_client_session_id galaxy_client_type.

(** [POST /census-search]: Searches historical population data. *)
Definition census_search (search_request : Model) (settings : Settings)
    (inbound : gmap string string) : Task json :=
  let galaxy_ap_name := Header inbound "galaxy-ap-name" in
  let galaxy_ap_password := Header inbound "galaxy-ap-password" in
  let galaxy_client_session_id := Header inbound "galaxy-client-session-id" in
  let galaxy_client_type := Header inbound "galaxy-client-type" in
  let galaxy_search_type := Header inbound "galaxy-search-type" in
  let request_body := model_dump search_request in
  call_enformion_api
    (CENSUS_SEARCH_API_URL settings)
    (or_default galaxy_search_type "Census")
    request_body
    settings
    galaxy_ap_name galaxy_ap_password galaxy_client_session_id galaxy_client_type.

(** [POST /divorce-search]: Searches for divorce records. *)
Definition divorce_search (search_request : Model) (settings : Settings)
    (inbound : gmap string string) : Task json :=
  let galaxy_ap_name := Header inbound "galaxy-ap-name" in
  let galaxy_ap_password := Header inbound "galaxy-ap-password" in
  let galaxy_client_session_id := Header inbound "galaxy-client-session-id" in
  let galaxy_client_type := Header inbound "galaxy-client-type" in
  let galaxy_search_type := Header inbound "galaxy-search-type" in
  let request_body := model_dump search_request in
  call_enformion_api
    (DIVORCE_SEARCH_API_URL settings)
    (or_default galaxy_search_type "Divorce")
    request_body
    settings
    galaxy_ap_name galaxy_ap_password galaxy_client_session_id galaxy_client_type.

(** [POST /linkedin-id]: Searches by a LinkedIn profile URL. *)
Definition linkedin_id (search_request : Model) (settings : Settings)
    (inbound : gmap string string) : Task json :=
  let galaxy_ap_name := Header inbound "galaxy-ap-name" in
  let galaxy_ap_password := Header inbound "galaxy-ap-password" in
  let galaxy_client_session_id := Header inbound "galaxy-client-session-id" in
  let galaxy_client_type := Header inbound "galaxy-client-type" in
  let galaxy_search_type := Header inbound "galaxy-search-type" in
  let request_body := model_dump search_request in
  call_enformion_api
    (LINKEDIN_ID_API_URL settings)
    (or_default galaxy_search_type "LinkedInID")
    request_body
    settings
    galaxy_ap_name galaxy_ap_password galaxy_client_session_id galaxy_client_type.

(** [POST /property-search-v2]: Searches for property data. *)
Definition property_search_v2 (search_request : Model) (settings : Settings)
    (inbound : gmap string string) : Task json :=
  let galaxy_search_type := Header inbound "galaxy-search-type" in
  let galaxy_ap_name := Header inbound "galaxy-ap-name" in
  let galaxy_ap_password := Header inbound "galaxy-ap-password" in
  let galaxy_client_session_id := Header inbound "galaxy-client-session-id" in
  let galaxy_client_type := Header inbound "galaxy-client-type" in
  let request_body := model_dump search_request in
  call_enformion_api
    (PROPERTY_SEARCH_V2_API_URL settings)
    (or_default galaxy_search_type "PropertyV2Search")
    request_body
    settings
    galaxy_ap_name galaxy_ap_password galaxy_client_session_id galaxy_client_type.

(** [POST /business-search]: Searches for business data using various criteria. *)
Definition business_search (search_request : Model) (settings : Settings)
    (inbound : gmap string string) : Task json :=
  let galaxy_ap_name := Header inbound "galaxy-ap-name" in
  let galaxy_ap_password := Header inbound "galaxy-ap-password" in
  let galaxy_client_session_id := Header inbound "galaxy-client-session-id" in
  let galaxy_client_type := Header inbound "galaxy-client-type" in
  let galaxy_search_type := Header inbound "galaxy-search-type" in
  let request_body := model_dump search_request in
  call_enformion_api
    (BUSINESS_SEARCH_V2_API_URL settings)
    (or_default galaxy_search_type "BusinessV2Search")
    request_body
    settings
    galaxy_ap_name galaxy_ap_password galaxy_client_session_id galaxy_client_type.

(** [POST /business-search-v2]: Searches for business data using various criteria. *)
Definition business_search_v2 (search_request : Model) (settings : Settings)
    (inbound : gmap string string) : Task json :=
  let galaxy_search_type := Header inbound "galaxy-search-type" in
  let galaxy_ap_name := Header inbound "galaxy-ap-name" in
  let galaxy_ap_password := Header inbound "galaxy-ap-password" in
  let galaxy_client_session_id := Header inbound "galaxy-client-session-id" in
  let galaxy_client_type := Header inbound "galaxy-client-type" in
  let request_body := model_dump search_request in
  call_enformion_api
    (BUSINESS_SEARCH_V2_API_URL settings)
    (or_default galaxy_search_type "BusinessV2Search")
    request_body
    settings
    galaxy_ap_name galaxy_ap_password galaxy_client_session_id galaxy_client_type.

(** [POST /domain-search]: Searches for domain data. *)
Definition domain_search (search_request : Model) (settings : Settings)
    (inbound : gmap string string) : Task json :=
  let galaxy_search_type := Header inbound "galaxy-search-type" in
  let galaxy_ap_name := Header inbound "galaxy-ap-name" in
  let galaxy_ap_password := Header inbound "galaxy-ap-password" in
  let galaxy_client_session_id := Header inbound "galaxy-client-session-id" in
  let galaxy_client_type := Header inbound "galaxy-client-type" in
  let request_body := model_dump search_request in
  call_enformion_api
    (DOMAIN_SEARCH_API_URL settings)
    (or_default galaxy_search_type "DomainSearch")
    request_body
    settings
    galaxy_ap_name galaxy_ap_password galaxy_client_session_id galaxy_client_type.

(** [POST /workplace-search]: Searches for workplace data. *)
Definition workplace_search (search_request : Model) (settings : Settings)
    (inbound : gmap string string) : Task json :=
  let galaxy_search_type := Header inbound "galaxy-search-type" in
  let galaxy_ap_name := Header inbound "galaxy-ap-name" in
  let galaxy_ap_password := Header inbound "galaxy-ap-password" in
  let galaxy_client_session_id := Header inbound "galaxy-client-session-id" in
  let galaxy_client_type := Header inbound "galaxy-client-type" in
  let request_body := model_dump search_request in
  call_enformion_api
    (WORKPLACE_SEARCH_API_URL settings)
    (or_default galaxy_search_type "WorkplaceSearch")
    request_body
    settings
    galaxy_ap_name galaxy_ap_password galaxy_client_session_id galaxy_client_type.

(** [POST /business-id]: Searches by business ID. *)
Definition business_id (search_request : Model) (settings : Settings)
    (inbound : gmap string string) : Task json :=
  let galaxy_search_type := Header inbound "galaxy-search-type" in
  let galaxy_ap_name := Header inbound "galaxy-ap-name" in
  let galaxy_ap_password := Header inbound "galaxy-ap-password" in
  let galaxy_client_session_id := Header inbound "galaxy-client-session-id" in
  let galaxy_client_type := Header inbound "galaxy-client-type" in
  let request_body := model_dump search_request in
  call_enformion_api
    (BUSINESS_ID_API_URL settings)
    (or_default galaxy_search_type "BusinessID")
    request_body
    settings
    galaxy_ap_name galaxy_ap_password galaxy_client_session_id galaxy_client_type.

(** [POST /contact-enrichment-plus]: Performs a contact enrichment (Enrich+) search. *)
Definition contact_enrichment_plus (payload : json) (settings : Settings)
    (inbound : gmap string string) : Task json :=
  let galaxy_ap_name := Header inbound "galaxy-ap-name" in
  let galaxy_ap_password := Header inbound "galaxy-ap-password" in
  let galaxy_client_session_id := Header inbound "galaxy-client-session-id" in
  let galaxy_client_type := Header inbound "galaxy-client-type" in
  let galaxy_search_type := Header inbound "galaxy-search-type" in
  call_enformion_api
    (CONTACT_ENRICHMENT_PLUS_API_URL settings)
    (or_default galaxy_search_type "ContactEnrichPlus")
    payload
    settings
    galaxy_ap_name galaxy_ap_password galaxy_client_session_id galaxy_client_type.

(** [POST /contact-id-plus]: Searches for contact information using a unique person ID (Id+). *)
Definition contact_id_plus (payload : json) (settings : Settings)
    (inbound : gmap string string) : Task json :=
  let galaxy_ap_name := Header inbound "galaxy-ap-name" in
  let galaxy_ap_password := Header inbound "galaxy-ap-password" in
  let galaxy_client_session_id := Header inbound "galaxy-client-session-id" in
  let galaxy_client_type := Header inbound "galaxy-client-type" in
  let galaxy_search_type := Header inbound "galaxy-search-type" in
  call_enformion_api
    (CONTACT_ID_PLUS_API_URL settings)
    (or_default galaxy_search_type "ContactIdPlus")
    payload
    settings
    galaxy_ap_name galaxy_ap_password galaxy_client_session_id galaxy_client_type.

(** [POST /caller-id-plus]: Retrieves information associated with a provided phone number (Enrich+). *)
Definition caller_id_plus (payload : json) (settings : Settings)
    (inbound : gmap string string) : Task json :=
  let galaxy_ap_name := Header inbound "galaxy-ap-name" in
  let galaxy_ap_password := Header inbound "galaxy-ap-password" in
  let galaxy_client_session_id := Header inbound "galaxy-client-session-id" in
  let galaxy_client_type := Header inbound "galaxy-client-type" in
  let galaxy_search_type := Header inbound "galaxy-search-type" in
  call_enformion_api
    (CALLER_ID_PLUS_API_URL settings)
    (or_default galaxy_search_type "PhoneEnrichPlus")
    payload
    settings
    galaxy_ap_name galaxy_ap_password galaxy_client_session_id galaxy_client_type.

(** [POST /email-id-plus]: Retrieves information associated with a provided email address (Enrich+). *)
Definition email_id_plus (payload : json) (settings : Settings)
    (inbound : gmap string string) : Task json :=
  let galaxy_ap_name := Header inbound "galaxy-ap-name" in
  let galaxy_ap_password := Header inbound "galaxy-ap-password" in
  let galaxy_client_session_id := Header inbound "galaxy-client-session-id" in
  let galaxy_client_type := Header inbound "galaxy-client-type" in
  let galaxy_search_type := Header inbound "galaxy-search-type" in
  call_enformion_api
    (EMAIL_ID_PLUS_API_URL settings)
    (or_default galaxy_search_type "EmailEnrichPlus")
    payload
    settings
    galaxy_ap_name galaxy_ap_password galaxy_client_session_id galaxy_client_type.

(** [POST /address-id-plus]: Finds contact info for current owners or residents of a property (Id+). *)
Definition address_id_plus (payload : json) (settings : Settings)
    (inbound : gmap string string) : Task json :=
  let galaxy_ap_name := Header inbound "galaxy-ap-name" in
  let galaxy_ap_password := Header inbound "galaxy-ap-password" in
  let galaxy_client_session_id := Header inbound "galaxy-client-session-id" in
  let galaxy_client_type := Header inbound "galaxy-client-type" in
  let galaxy_search_type := Header inbound "galaxy-search-type" in
  call_enformion_api
    (ADDRESS_ID_PLUS_API_URL settings)
    (or_default galaxy_search_type "AddressIdPlus")
    payload
    settings
    galaxy_ap_name galaxy_ap_password galaxy_client_session_id galaxy_client_type.

(** [POST /criminal-search-v2]: Searches for criminal records (v2). *)
Definition criminal_search_v2 (payload : json) (settings : Settings)
    (inbound : gmap string string) : Task json :=
  let galaxy_ap_name := Header inbound "galaxy-ap-name" in
  let galaxy_ap_password := Header inbound "galaxy-ap-password" in
  let galaxy_client_session_id := Header inbound "galaxy-client-session-id" in
  let galaxy_client_type := Header inbound "galaxy-client-type" in
  let galaxy_search_type := Header inbound "galaxy-search-type" in
  call_enformion_api
    (CRIMINAL_SEARCH_V2_API_URL settings)
    (or_default galaxy_search_type "CriminalSearchV2")
    payload
    settings
    galaxy_ap_name galaxy_ap_password galaxy_client_session_id galaxy_client_type.

(** [POST /debt-v2]: Searches for debt records (v2). *)
Definition debt_v2 (payload : json) (settings : Settings)
    (inbound : gmap string string) : Task json :=
  let galaxy_ap_name := Header inbound "galaxy-ap-name" in
  let galaxy_ap_password := Header inbound "galaxy-ap-password" in
  let galaxy_client_session_id := Header inbound "galaxy-client-session-id" in
  let galaxy_client_type := Header inbound "galaxy-client-type" in
  let galaxy_search_type := Header inbound "galaxy-search-type" in
  call_enformion_api
    (DEBT_SEARCH_V2_API_URL settings)
    (or_default galaxy_search_type "DebtSearchV2")
    payload
    settings
    galaxy_ap_name galaxy_ap_password galaxy_client_session_id galaxy_client_type.

(** [POST /eviction-search]: Searches eviction records. *)
Definition eviction_search (payload : json) (settings : Settings)
    (inbound : gmap string string) : Task json :=
  let galaxy_ap_name := Header inbound "galaxy-ap-name" in
  let galaxy_ap_password := Header inbound "galaxy-ap-password" in
  let galaxy_client_session_id := Header inbound "galaxy-client-session-id" in
  let galaxy_client_type := Header inbound "galaxy-client-type" in
  let galaxy_search_type := Header inbound "galaxy-search-type" in
  call_enformion_api
    (EVICTION_SEARCH_API_URL settings)
    (or_default galaxy_search_type "EvictionSearch")
    payload
    settings
    galaxy_ap_name galaxy_ap_password galaxy_client_session_id galaxy_client_type.

(** [POST /marriage-search]: Searches marriage records. *)
Definition marriage_search (payload : json) (settings : Settings)
    (inbound : gmap string string) : Task json :=
  let galaxy_ap_name := Header inbound "galaxy-ap-name" in
  let galaxy_ap_password := Header inbound "galaxy-ap-password" in
  let galaxy_client_session_id := Header inbound "galaxy-client-session-id" in
  let galaxy_client_type := Header inbound "galaxy-client-type" in
  let galaxy_search_type := Header inbound "galaxy-search-type" in
  call_enformion_api
    (MARRIAGE_SEARCH_API_URL settings)
    (or_default galaxy_search_type "MarriageSearch")
    payload
    settings
    galaxy_ap_name galaxy_ap_password galaxy_client_session_id galaxy_client_type.

(** [POST /ofac-search]: Searches OFAC records. *)
Definition ofac_search (payload : json) (settings : Settings)
    (inbound : gmap string string) : Task json :=
  let galaxy_ap_name := Header inbound "galaxy-ap-name" in
  let galaxy_ap_password := Header inbound "galaxy-ap-password" in
  let galaxy_client_session_id := Header inbound "galaxy-client-session-id" in
  let galaxy_client_type := Header inbound "galaxy-client-type" in
  let galaxy_search_type := Header inbound "galaxy-search-type" in
  call_enformion_api
    (OFAC_SEARCH_API_URL settings)
    (or_default galaxy_search_type "OfacSearch")
    payload
    settings
    galaxy_ap_name galaxy_ap_password galaxy_client_session_id galaxy_client_type.

(** [POST /pre-foreclosure-search-v2]: Searches pre-foreclosure / foreclosure records (v2). *)
Definition pre_foreclosure_search_v2 (payload : json) (settings : Settings)
    (inbound : gmap string string) : Task json :=
  let galaxy_ap_name := Header inbound "galaxy-ap-name" in
  let galaxy_ap_password := Header inbound "galaxy-ap-password" in
  let galaxy_client_session_id := Header inbound "galaxy-client-session-id" in
  let galaxy_client_type := Header inbound "galaxy-client-type" in
  let galaxy_search_type := Header inbound "galaxy-search-type" in
  call_enformion_api
    (PRE_FORECLOSURE_SEARCH_V2_API_URL settings)
    (or_default galaxy_search_type "ForeclosureV2Search")
    payload
    settings
    galaxy_ap_name galaxy_ap_password galaxy_client_session_id galaxy_client_type.

(** [POST /professional-license-search]: Searches professional license records. *)
Definition professional_license_search (payload : json) (settings : Settings)
    (inbound : gmap string string) : Task json :=
  let galaxy_ap_name := Header inbound "galaxy-ap-name" in
  let galaxy_ap_password := Header inbound "galaxy-ap-password" in
  let galaxy_client_session_id := Header inbound "galaxy-client-session-id" in
  let galaxy_client_type := Header inbound "galaxy-client-type" in
  let galaxy_search_type := Header inbound "galaxy-search-type" in
  call_enformion_api
    (PRO_LICENSE_SEARCH_API_URL settings)
    (or_default galaxy_search_type "ProLicense")
    payload
    settings
    galaxy_ap_name galaxy_ap_password galaxy_client_session_id galaxy_client_type.

(** [POST /vehicle-ownership-search]: Searches vehicle ownership / registration records. *)
Definition vehicle_ownership_search (payload : json) (settings : Settings)
    (inbound : gmap string string) : Task json :=
  let galaxy_ap_name := Header inbound "galaxy-ap-name" in
  let galaxy_ap_password := Header inbound "galaxy-ap-password" in
  let galaxy_client_session_id := Header inbound "galaxy-client-session-id" in
  let galaxy_client_type := Header inbound "galaxy-client-type" in
  let galaxy_search_type := Header inbound "galaxy-search-type" in
  call_enformion_api
    (VEHICLE_OWNERSHIP_SEARCH_API_URL settings)
    (or_default galaxy_search_type "VehicleRegistrationSearch")
    payload
    settings
    galaxy_ap_name galaxy_ap_password galaxy_client_session_id galaxy_client_type.

(** [POST /eleadverify]: Performs eIDV eLeadVerify (documented in ReadMe). *)
Definition eleadverify (payload : json) (settings : Settings)
    (inbound : gmap string string) : Task json :=
  let galaxy_ap_name := Header inbound "galaxy-ap-name" in
  let galaxy_ap_password := Header inbound "galaxy-ap-password" in
  let galaxy_client_session_id := Header inbound "galaxy-client-session-id" in
  let galaxy_client_type := Header inbound "galaxy-client-type" in
  let galaxy_search_type := Header inbound "galaxy-search-type" in
  call_enformion_api
    (ELEADVERIFY_API_URL settings)
    (or_default galaxy_search_type "eLeadVerify")
    payload
    settings
    galaxy_ap_name galaxy_ap_password galaxy_client_session_id galaxy_client_type.

(** [POST /data-alerts/add-subscription]: Adds a data alert subscription. *)
Definition data_alerts_add_subscription (payload : json) (settings : Settings)
    (inbound : gmap string string) : Task json :=
  let galaxy_ap_name := Header inbound "galaxy-ap-name" in
  let galaxy_ap_password := Header inbound "galaxy-ap-password" in
  let galaxy_client_session_id := Header inbound "galaxy-client-session-id" in
  let galaxy_client_type := Header inbound "galaxy-client-type" in
  let galaxy_search_type := Header inbound "galaxy-search-type" in
  call_enformion_api
    (DATA_ALERTS_ADD_SUBSCRIPTION_API_URL settings)
    (or_default galaxy_search_type "DataAlertsAddSubscription")
    payload
    settings
    galaxy_ap_name galaxy_ap_password galaxy_client_session_id galaxy_client_type.

(** [POST /data-alerts/remove-subscription]: Removes a data alert subscription. *)
Definition data_alerts_remove_subscription (payload : json) (settings : Settings)
    (inbound : gmap string string) : Task json :=
  let galaxy_ap_name := Header inbound "galaxy-ap-name" in
  let galaxy_ap_password := Header inbound "galaxy-ap-password" in
  let galaxy_client_session_id := Header inbound "galaxy-client-session-id" in
  let galaxy_client_type := Header inbound "galaxy-client-type" in
  let galaxy_search_type := Header inbound "galaxy-search-type" in
  call_enformion_api
    (DATA_ALERTS_REMOVE_SUBSCRIPTION_API_URL settings)
    (or_default galaxy_search_type "DataAlertsRemoveSubscription")
    payload
    settings
    galaxy_ap_name galaxy_ap_password galaxy_client_session_id galaxy_client_type.

(** [POST /data-alerts/get-subscription]: Retrieves a data alert subscription. *)
Definition data_alerts_get_subscription (payload : json) (settings : Settings)
    (inbound : gmap string string) : Task json :=
  let galaxy_ap_name := Header inbound "galaxy-ap-name" in
  let galaxy_ap_password := Header inbound "galaxy-ap-password" in
  let galaxy_client_session_id := Header inbound "galaxy-client-session-id" in
  let galaxy_client_type := Header inbound "galaxy-client-type" in
  let galaxy_search_type := Header inbound "galaxy-search-type" in
  call_enformion_api
    (DATA_ALERTS_GET_SUBSCRIPTION_API_URL settings)
    (or_default galaxy_search_type "DataAlertsGetSubscription")
    payload
    settings
    galaxy_ap_name galaxy_ap_password galaxy_client_session_id galaxy_client_type.

(** [POST /data-alerts/count-alert]: Counts alerts. *)
Definition data_alerts_count_alert (payload : json) (settings : Settings)
    (inbound : gmap string string) : Task json :=
  let galaxy_ap_name := Header inbound "galaxy-ap-name" in
  let galaxy_ap_password := Header inbound "galaxy-ap-password" in
  let galaxy_client_session_id := Header inbound "galaxy-client-session-id" in
  let galaxy_client_type := Header inbound "galaxy-client-type" in
  let galaxy_search_type := Header inbound "galaxy-search-type" in
  call_enformion_api
    (DATA_ALERTS_COUNT_ALERT_API_URL settings)
    (or_default galaxy_search_type "DataAlertsCountAlert")
    payload
    settings
    galaxy_ap_name galaxy_ap_password galaxy_client_session_id galaxy_client_type.

(** [POST /data-alerts/get-alert]: Retrieves an alert. *)
Definition data_alerts_get_alert (payload : json) (settings : Settings)
    (inbound : gmap string string) : Task json :=
  let galaxy_ap_name := Header inbound "galaxy-ap-name" in
  let galaxy_ap_password := Header inbound "galaxy-ap-password" in
  let galaxy_client_session_id := Header inbound "galaxy-client-session-id" in
  let galaxy_client_type := Header inbound "galaxy-client-type" in
  let galaxy_search_type := Header inbound "galaxy-search-type" in
  call_enformion_api
    (DATA_ALERTS_GET_ALERT_API_URL settings)
    (or_default galaxy_search_type "DataAlertsGetAlert")
    payload
    settings
    galaxy_ap_name galaxy_ap_password galaxy_client_session_id galaxy_client_type.

(** The routing table: every [@app.post(path)] with its handler. *)
Definition routes : list (string * Endpoint) := [
  ("/contact-enrichment", SchemaBacked "ContactEnrichmentRequest" contact_enrichment);
  ("/caller-id", SchemaBacked "CallerIdRequest" caller_id);
  ("/email-id", SchemaBacked "EmailIdRequest" email_id);
  ("/contact-id", SchemaBacked "ContactIdRequest" contact_id);
  ("/address-id", SchemaBacked "AddressIdRequest" address_id);
  ("/address-autocomplete", SchemaBacked "AddressAutoCompleteRequest" address_autocomplete);
  ("/person-search", SchemaBacked "PersonSearchRequest" person_search);
  ("/reverse-phone-search", SchemaBacked "ReversePhoneSearchRequest" reverse_phone_search);
  ("/id-verification", SchemaBacked "IdVerificationRequest" id_verification);
  ("/census-search", SchemaBacked "CensusSearchRequest" census_search);
  ("/divorce-search", SchemaBacked "DivorceSearchRequest" divorce_search);
  ("/linkedin-id", SchemaBacked "LinkedInIdRequest" linkedin_id);
  ("/property-search-v2", SchemaBacked "PropertySearchV2Request" property_search_v2);
  ("/business-search", SchemaBacked "BusinessSearchRequest" business_search);
  ("/business-search-v2", SchemaBacked "BusinessSearchRequest" business_search_v2);
  ("/domain-search", SchemaBacked "DomainSearchRequest" domain_search);
  ("/workplace-search", SchemaBacked "WorkplaceSearchRequest" workplace_search);
  ("/business-id", SchemaBacked "BusinessIDRequest" business_id);
  ("/contact-enrichment-plus", OpenPayload contact_enrichment_plus);
  ("/contact-id-plus", OpenPayload contact_id_plus);
  ("/caller-id-plus", OpenPayload caller_id_plus);
  ("/email-id-plus", OpenPayload email_id_plus);
  ("/address-id-plus", OpenPayload address_id_plus);
  ("/criminal-search-v2", OpenPayload criminal_search_v2);
  ("/debt-v2", OpenPayload debt_v2);
  ("/eviction-search", OpenPayload eviction_search);
  ("/marriage-search", OpenPayload marriage_search);
  ("/ofac-search", OpenPayload ofac_search);
  ("/pre-foreclosure-search-v2", OpenPayload pre_foreclosure_search_v2);
  ("/professional-license-search", OpenPayload professional_license_search);
  ("/vehicle-ownership-search", OpenPayload vehicle_ownership_search);
  ("/eleadverify", OpenPayload eleadverify);
  ("/data-alerts/add-subscription", OpenPayload data_alerts_add_subscription);
  ("/data-alerts/remove-subscription", OpenPayload data_alerts_remove_subscription);
  ("/data-alerts/get-subscription", OpenPayload data_alerts_get_subscription);
  ("/data-alerts/count-alert", OpenPayload data_alerts_count_alert);
  ("/data-alerts/get-alert", OpenPayload data_alerts_get_alert)
].

(** ** The shape the handlers share *)

(** A property of handlers, asked of an endpoint of either kind; [body_of]
    says which JSON the kind is expected to post. *)
Definition on_handler
    (P : forall B : Type, (B -> json) ->
         (B -> Settings -> gmap string string -> Task json) -> Prop)
    (endpoint : Endpoint) : Prop :=
  match endpoint with
  | SchemaBacked _ handler => P Model model_dump handler
  | OpenPayload handler => P json id handler
  end.

(** The two rules for the search type: the header or a literal default;
    for [/person-search], the enum member named by the header. *)
Definition default_tag (d : string) (h : option string) : Exception + string :=
  inr (or_default h d).

Definition person_tag (h : option string) : Exception + string :=
  match h with
  | None => inr "Person"
  | Some s =>
      if String.eqb s "Person" then inr "Person"
      else if String.eqb s "Teaser" then inr "Teaser"
      else inl (RequestValidationError s)
  end.

(** A blank override read as a missing one. *)
Definition blank_to_none (o : option string) : option string :=
  match o with
  | Some (String c s) => Some (String c s)
  | _ => None
  end.

(** A handler proxies when it is: an optional gate on the body, the search
    type taken from the header by some rule, then the helper called with
    the route's URL, the body and the four remaining header parameters.
    Outside [/person-search] the rule treats a blank header as a missing
    one; everywhere a non-blank header that the rule accepts is the tag. *)
Definition proxies (B : Type) (body_of : B -> json) (path : string)
    (handler : B -> Settings -> gmap string string -> Task json) : Prop :=
  exists (gate : B -> option Exception) (api_url : Settings -> string)
         (tag : option string -> Exception + string),
    (forall body settings inbound w,
        handler body settings inbound w =
          match gate body with
          | Some e => (Raise e, w)
          | None =>
              match tag (Header inbound "galaxy-search-type") with
              | inl e => (Raise e, w)
              | inr search_type =>
                  call_enformion_api (api_url settings) search_type (body_of body) settings
                    (Header inbound "galaxy-ap-name") (Header inbound "galaxy-ap-password")
                    (Header inbound "galaxy-client-session-id")
                    (Header inbound "galaxy-client-type") w
              end
          end) /\
    (path <> "/person-search" -> tag (Some EmptyString) = tag None) /\
    (forall c s t, tag (Some (String c s)) = inr t -> t = String c s).

(** Only the five override headers are read; and either the handler raises
    before any POST, or it issues one POST in which a supplied (non-empty)
    value is the value carried under the same name. *)
Definition takes_overrides (B : Type) (body_of : B -> json)
    (handler : B -> Settings -> gmap string string -> Task json) : Prop :=
  forall body settings inbound w,
    (forall inbound' : gmap string string,
        (forall k, k ∈ override_headers -> inbound' !! k = inbound !! k) ->
        handler body settings inbound' w = handler body settings inbound w) /\
    ((exists e, handler body settings inbound w = (Raise e, w)) \/
     exists request,
       calls (handler body settings inbound w).2 = calls w ++ [request] /\
       forall k c s, k ∈ override_headers -> inbound !! k = Some (String c s) ->
                     req_headers request !! k = Some (String c s)).

(** Either the handler raises before any POST, or it issues one POST, and
    that one carries [body_of body]. *)
Definition forwards (B : Type) (body_of : B -> json)
    (handler : B -> Settings -> gmap string string -> Task json) : Prop :=
  forall body settings inbound w,
    (exists e, handler body settings inbound w = (Raise e, w)) \/
    exists request,
      calls (handler body settings inbound w).2 = calls w ++ [request] /\
      req_json request = body_of body.

(** A blank value for header [k] is as good as no header [k]. *)
Definition blank_is_missing (k : string) (B : Type) (body_of : B -> json)
    (handler : B -> Settings -> gmap string string -> Task json) : Prop :=
  forall body settings (inbound : gmap string string) w,
    handler body settings (<[k := EmptyString]> inbound) w
    = handler body settings (delete k inbound) w.

(** ** Properties asked of every handler *)

(** The shape of [proxies], with what the gate and the search-type rule can
    answer: only the two validated routes have a gate that refuses, and it
    refuses with status 400; only [/person-search] can refuse a header; the
    search type is never blank; the URL is a setting that does not depend
    on the credentials, and by default one of the dev API host. *)
Definition proxies_strictly (B : Type) (body_of : B -> json) (path : string)
    (handler : B -> Settings -> gmap string string -> Task json) : Prop :=
  exists (gate : B -> option Exception) (api_url : Settings -> string)
         (tag : option string -> Exception + string),
    (forall body settings inbound w,
        handler body settings inbound w =
          match gate body with
          | Some e => (Raise e, w)
          | None =>
              match tag (Header inbound "galaxy-search-type") with
              | inl e => (Raise e, w)
              | inr search_type =>
                  call_enformion_api (api_url settings) search_type (body_of body) settings
                    (Header inbound "galaxy-ap-name") (Header inbound "galaxy-ap-password")
                    (Header inbound "galaxy-client-session-id")
                    (Header inbound "galaxy-client-type") w
              end
          end) /\
    (forall body e, gate body = Some e ->
        (path = "/contact-enrichment" \/ path = "/id-verification") /\
        exists detail, e = HTTPException 400 detail) /\
    (forall h e, tag h = inl e ->
        path = "/person-search" /\
        exists s, h = Some s /\ s <> "Person" /\ s <> "Teaser" /\
                  e = RequestValidationError s) /\
    (forall settings name password,
        api_url (set_credentials settings name password) = api_url settings) /\
    (forall h t, tag h = inr t -> t <> EmptyString) /\
    String.prefix "https://devapi.enformion.com/" (api_url default_settings) = true.

(** One inbound request, at most one POST; the POST has the 15 second
    timeout, JSON content type, and no header name beyond the six. *)
Definition posts_at_most_once (B : Type) (body_of : B -> json)
    (handler : B -> Settings -> gmap string string -> Task json) : Prop :=
  forall body settings inbound w,
    exists posts,
      calls (handler body settings inbound w).2 = calls w ++ posts /\
      (length posts <= 1)%nat /\
      Forall (fun request =>
                req_timeout request = 15 /\
                req_headers request !! "Content-Type" = Some "application/json" /\
                dom (req_headers request) ⊆ outbound_header_names) posts.

(** The log grows by one ERROR record exactly when the handler raises the
    upstream-rejection error, and is left alone in every other case. *)
Definition logs_only_rejections (B : Type) (body_of : B -> json)
    (handler : B -> Settings -> gmap string string -> Task json) : Prop :=
  forall body settings inbound w,
    match (handler body settings inbound w).1 with
    | Raise (InvalidRequestError message) =>
        message = upstream_failed_message /\
        exists record, log (handler body settings inbound w).2 = log w ++ [(ERROR, record)]
    | _ => log (handler body settings inbound w).2 = log w
    end.

(** With a credential neither sent nor configured, the handler raises and
    the world stays as it was. *)
Definition refuses_without_credentials (B : Type) (body_of : B -> json)
    (handler : B -> Settings -> gmap string string -> Task json) : Prop :=
  forall body settings inbound w,
    resolve_credential (Header inbound "galaxy-ap-name") (GALAXY_AP_NAME settings) = None \/
    resolve_credential (Header inbound "galaxy-ap-password") (GALAXY_AP_PASSWORD settings) = None ->
    exists e, handler body settings inbound w = (Raise e, w).

(** On a route without a gate, any body that is a JSON object goes out:
    with both credentials resolved (and, on [/person-search], a search type
    that is missing or a member of the enum) there is exactly one POST, and
    it carries the body and the two credentials. *)
Definition posts_any_body (path : string) (B : Type) (body_of : B -> json)
    (handler : B -> Settings -> gmap string string -> Task json) : Prop :=
  forall body settings inbound w n p,
    is_object (body_of body) ->
    path <> "/contact-enrichment" -> path <> "/id-verification" ->
    (path = "/person-search" ->
       Header inbound "galaxy-search-type" = None \/
       Header inbound "galaxy-search-type" = Some "Person" \/
       Header inbound "galaxy-search-type" = Some "Teaser") ->
    resolve_credential (Header inbound "galaxy-ap-name") (GALAXY_AP_NAME settings) = Some n ->
    resolve_credential (Header inbound "galaxy-ap-password") (GALAXY_AP_PASSWORD settings) = Some p ->
    exists request,
      calls (handler body settings inbound w).2 = calls w ++ [request] /\
      req_json request = body_of body /\
      req_headers request !! "galaxy-ap-name" = Some n /\
      req_headers request !! "galaxy-ap-password" = Some p.

(** Configured credentials that are blank count as not configured. *)
Definition blank_default_is_unset (B : Type) (body_of : B -> json)
    (handler : B -> Settings -> gmap string string -> Task json) : Prop :=
  forall body settings inbound w,
    handler body settings inbound w
    = handler body
        (set_credentials settings
           (blank_to_none (GALAXY_AP_NAME settings))
           (blank_to_none (GALAXY_AP_PASSWORD settings)))
        inbound w.

(** Nothing blank is sent: every header of the POST has a value. *)
Definition sends_no_blank_header (B : Type) (body_of : B -> json)
    (handler : B -> Settings -> gmap string string -> Task json) : Prop :=
  forall body settings inbound w request,
    calls (handler body settings inbound w).2 = calls w ++ [request] ->
    forall k v, req_headers request !! k = Some v -> v <> EmptyString.

(** With the URLs left at their defaults, the POST goes to the dev API
    host, over https. *)
Definition posts_to_default_host (B : Type) (body_of : B -> json)
    (handler : B -> Settings -> gmap string string -> Task json) : Prop :=
  forall body name password inbound w request,
    calls (handler body (set_credentials default_settings name password) inbound w).2
      = calls w ++ [request] ->
    String.prefix "https://devapi.enformion.com/" (req_url request) = true.

(** A value the handler returns is the parsed body of a 2xx answer to the
    one POST it made. *)
Definition relays_upstream_body (B : Type) (body_of : B -> json)
    (handler : B -> Settings -> gmap string string -> Task json) : Prop :=
  forall body settings inbound w j,
    (handler body settings inbound w).1 = Return j ->
    exists request response,
      calls (handler body settings inbound w).2 = calls w ++ [request] /\
      upstream (calls w) request = Responded response /\
      200 <= status_code response <= 299 /\
      json_loads (text response) = Some j.

(** ** The request body, before the handler *)

(** What FastAPI does with the body before it calls the handler: the body
    has to be a JSON object; for a schema-backed endpoint it is validated
    against the class, for an open-payload endpoint ([dict[str, Any]]) it is
    passed as it is. A body that does not pass is answered with a
    validation error (422) and the handler does not run. [models] gives the
    request classes of [models.py] by class name. *)
Definition serve (models : string -> Class) (endpoint : Endpoint) (body : json)
    (settings : Settings) (inbound : gmap string string) : Task json :=
  match endpoint, body with
  | SchemaBacked model_class handler, JObject ms =>
      match model_validate (models model_class) ms with
      | Some search_request => handler search_request settings inbound
      | None => raise (RequestValidationError "body")
      end
  | OpenPayload handler, JObject _ => handler body settings inbound
  | _, _ => raise (RequestValidationError "body")
  end.

(** A property of the handler of a route, with what the route lets through:
    a parsed request that passes the route's gate, or any JSON object. *)
Definition on_route
    (P : string -> forall B : Type, (B -> Prop) -> (B -> json) ->
         (B -> Settings -> gmap string string -> Task json) -> Prop)
    (route : string * Endpoint) : Prop :=
  match route.2 with
  | SchemaBacked _ handler =>
      P route.1 Model (fun m => route_gate route.1 m = true) model_dump handler
  | OpenPayload handler => P route.1 json is_object id handler
  end.

(** For a body the route lets through, the handler is the helper called
    with the route's URL, a search type taken from the header, the body and
    the four remaining header parameters; the search type is the header's
    value when the header has one. *)
Definition proxies_exactly (path : string) (B : Type) (accepted : B -> Prop)
    (body_of : B -> json)
    (handler : B -> Settings -> gmap string string -> Task json) : Prop :=
  exists (api_url : Settings -> string) (tag : option string -> Exception + string),
    (forall body settings inbound w, accepted body ->
        handler body settings inbound w =
          match tag (Header inbound "galaxy-search-type") with
          | inl e => (Raise e, w)
          | inr search_type =>
              call_enformion_api (api_url settings) search_type (body_of body) settings
                (Header inbound "galaxy-ap-name") (Header inbound "galaxy-ap-password")
                (Header inbound "galaxy-client-session-id")
                (Header inbound "galaxy-client-type") w
          end) /\
    (forall inbound, search_type_accepted path inbound ->
        exists t, tag (Header inbound "galaxy-search-type") = inr t /\
                  forall c s, inbound !! "galaxy-search-type" = Some (String c s) ->
                              t = String c s).

(** The overrides are taken up: for a body the route lets through and
    credentials that resolve, there is one POST; it carries the resolved
    name and secret, and every override header sent with a value goes out
    under the same name with that value. *)
Definition accepts_overrides (path : string) (B : Type) (accepted : B -> Prop)
    (body_of : B -> json)
    (handler : B -> Settings -> gmap string string -> Task json) : Prop :=
  forall body settings inbound w n p,
    accepted body ->
    search_type_accepted path inbound ->
    resolve_credential (Header inbound "galaxy-ap-name") (GALAXY_AP_NAME settings) = Some n ->
    resolve_credential (Header inbound "galaxy-ap-password") (GALAXY_AP_PASSWORD settings) = Some p ->
    exists request,
      calls (handler body settings inbound w).2 = calls w ++ [request] /\
      req_headers request !! "galaxy-ap-name" = Some n /\
      req_headers request !! "galaxy-ap-password" = Some p /\
      forall k c s, k ∈ override_headers -> inbound !! k = Some (String c s) ->
                    req_headers request !! k = Some (String c s).

(** What a route posts for the caller's JSON object. Schema-backed: for an
    input that validates and fits the class, whatever is posted is the
    input without its [null] members, and it is posted as soon as the gate,
    the search type and the credentials allow. Open payload: whatever is
    posted is the input, and it is posted as soon as the credentials
    allow. *)
Definition forwards_input (models : string -> Class) (route : string * Endpoint) : Prop :=
  match route.2 with
  | SchemaBacked model_class _ =>
      forall ms m settings inbound w,
        model_validate (models model_class) ms = Some m ->
        conforms (Nested (models model_class)) (JObject ms) ->
        (forall request,
            calls (serve models route.2 (JObject ms) settings inbound w).2 = calls w ++ [request] ->
            json_same (req_json request) (without_nulls (JObject ms))) /\
        (forall n p,
            route_gate route.1 m = true ->
            search_type_accepted route.1 inbound ->
            resolve_credential (Header inbound "galaxy-ap-name")
              (GALAXY_AP_NAME settings) = Some n ->
            resolve_credential (Header inbound "galaxy-ap-password")
              (GALAXY_AP_PASSWORD settings) = Some p ->
            exists request,
              calls (serve models route.2 (JObject ms) settings inbound w).2 = calls w ++ [request])
  | OpenPayload _ =>
      forall ms settings inbound w,
        (forall request,
            calls (serve models route.2 (JObject ms) settings inbound w).2 = calls w ++ [request] ->
            req_json request = JObject ms) /\
        (forall n p,
            search_type_accepted route.1 inbound ->
            resolve_credential (Header inbound "galaxy-ap-name")
              (GALAXY_AP_NAME settings) = Some n ->
            resolve_credential (Header inbound "galaxy-ap-password")
              (GALAXY_AP_PASSWORD settings) = Some p ->
            exists request,
              calls (serve models route.2 (JObject ms) settings inbound w).2 = calls w ++ [request])
  end.

(** ** The resolver, step by step *)

Lemma resolve_credential_truthy override default :
  resolve_credential override default =
    (let v := or_else override (if truthy_str default then default else None) in
     if truthy_str v then v else None).
Proof.
  destruct override as [[|c s]|], default as [[|d t]|]; reflexivity.
Qed.

Lemma resolve_credential_name override default :
  resolve_credential override default =
    (let v := or_else override default in if truthy_str v then v else None).
Proof.
  destruct override as [[|c s]|], default as [[|d t]|]; reflexivity.
Qed.

(** Unresolved credentials: the helper raises at once. *)
Lemma call_unresolved api_url search_type request_body settings name password sid ct w :
  resolve_credential name (GALAXY_AP_NAME settings) = None \/
  resolve_credential password (GALAXY_AP_PASSWORD settings) = None ->
  call_enformion_api api_url search_type request_body settings name password sid ct w
  = (Raise (APIConnectionError credentials_message), w).
Proof.
  unfold call_enformion_api.
  destruct name as [[|c s]|], (GALAXY_AP_NAME settings) as [[|d t]|],
           password as [[|c' s']|], (GALAXY_AP_PASSWORD settings) as [[|d' t']|];
    cbn; intros [H|H]; try discriminate H; reflexivity.
Qed.

(** Resolved credentials: one POST, then the outcome decides. *)
Lemma call_resolved api_url search_type request_body settings name password sid ct w n p :
  resolve_credential name (GALAXY_AP_NAME settings) = Some n ->
  resolve_credential password (GALAXY_AP_PASSWORD settings) = Some p ->
  let request := {| req_url := api_url; req_json := request_body;
                    req_headers := outbound_headers n p search_type sid ct;
                    req_timeout := 15 |} in
  let w' := {| calls := calls w ++ [request]; log := log w |} in
  call_enformion_api api_url search_type request_body settings name password sid ct w
  = match upstream (calls w) request with
    | TimedOut cause =>
        (Raise (APIConnectionError ("Request to EnformionGO API timed out: " +:+ cause)), w')
    | RequestFailed cause =>
        (Raise (APIConnectionError ("Error communicating with EnformionGO API: " +:+ cause)), w')
    | Responded r =>
        if is_success r then
          match json_loads (text r) with
          | Some j => (Return j, w')
          | None => (Raise (JSONDecodeError (text r)), w')
          end
        else
          (Raise (InvalidRequestError upstream_failed_message),
           {| calls := calls w ++ [request];
              log := log w ++ [(ERROR, "Invalid request to EnformionGO API. Status: "
                                       +:+ pretty (status_code r) +:+ ", Response: " +:+ text r)] |})
    end.
Proof.
  intros Hn Hp request w'.
  assert (En : or_else name (GALAXY_AP_NAME settings) = Some n /\ truthy_str (Some n) = true).
  { destruct name as [[|c s]|], (GALAXY_AP_NAME settings) as [[|d t]|];
      cbn in Hn; inversion Hn; subst; split; reflexivity. }
  assert (Ep : or_else password
                 (if truthy_str (GALAXY_AP_PASSWORD settings)
                  then GALAXY_AP_PASSWORD settings else None) = Some p
               /\ truthy_str (Some p) = true).
  { destruct password as [[|c s]|], (GALAXY_AP_PASSWORD settings) as [[|d t]|];
      cbn in Hp; inversion Hp; subst; split; reflexivity. }
  destruct En as [En Tn], Ep as [Ep Tp].
  unfold call_enformion_api. rewrite En, Ep, Tn, Tp. cbn [negb orb].
  change (str_of (Some n)) with n. change (str_of (Some p)) with p.
  fold (outbound_headers n p search_type sid ct).
  unfold mbind, Task_bind, try_except, client_post.
  fold request. fold w'.
  destruct (upstream (calls w) request) as [cause|cause|r]; try reflexivity.
  unfold raise_for_status. fold (is_success r).
  destruct (is_success r); cbn.
  - unfold response_json. destruct (json_loads (text r)); reflexivity.
  - reflexivity.
Qed.

(** ** The header set *)

Lemma outbound_headers_dom n p search_type sid ct :
  dom (outbound_headers n p search_type sid ct)
  = ({[ "galaxy-ap-name"; "galaxy-ap-password"; "galaxy-search-type"; "Content-Type" ]}
     ∪ (if truthy_str sid then {[ "galaxy-client-session-id" ]} else ∅)
     ∪ (if truthy_str ct then {[ "galaxy-client-type" ]} else ∅) : gset string).
Proof.
  unfold outbound_headers.
  destruct (truthy_str sid), (truthy_str ct);
    rewrite ?dom_insert_L, ?dom_singleton_L; set_solver.
Qed.

Lemma outbound_headers_mandatory n p search_type sid ct :
  let headers := outbound_headers n p search_type sid ct in
  headers !! "galaxy-ap-name" = Some n /\
  headers !! "galaxy-ap-password" = Some p /\
  headers !! "galaxy-search-type" = Some search_type /\
  headers !! "Content-Type" = Some "application/json".
Proof.
  unfold outbound_headers.
  destruct (truthy_str sid), (truthy_str ct); cbn zeta;
    repeat split; by simplify_map_eq.
Qed.

Lemma outbound_headers_optional n p search_type sid ct :
  let headers := outbound_headers n p search_type sid ct in
  headers !! "galaxy-client-session-id" = (if truthy_str sid then sid else None) /\
  headers !! "galaxy-client-type" = (if truthy_str ct then ct else None).
Proof.
  unfold outbound_headers.
  destruct sid as [[|c s]|], ct as [[|c' s']|]; cbn;
    split; by simplify_map_eq.
Qed.

Lemma credentials_message_mentions :
  mentions credentials_message "via env/.env" /\
  mentions credentials_message "as request headers".
Proof.
  split.
  - exists "API credentials are not configured. Provide (GALAXY_AP_NAME, GALAXY_AP_PASSWORD) ",
      ", or pass them as request headers (galaxy-ap-name, galaxy-ap-password).".
    reflexivity.
  - exists "API credentials are not configured. Provide (GALAXY_AP_NAME, GALAXY_AP_PASSWORD) via env/.env, or pass them ",
      " (galaxy-ap-name, galaxy-ap-password).".
    reflexivity.
Qed.

(** ** Claims about the resolver *)

(** C1. The effective credential is the per-call override when one is
    supplied and the configured default otherwise, for the name and for the
    secret independently. When both resolve, the single POST carries exactly
    these two values; when either one is absent after the fallback, the call
    raises the configuration error, whose message points to the environment
    and to the request headers, and the world is left as it was: no POST. *)
Theorem credentials_resolve_or_refuse
    api_url search_type request_body settings name password sid ct w :
  let run := call_enformion_api api_url search_type request_body settings
               name password sid ct w in
  (* override first, default second *)
  (forall c s default, resolve_credential (Some (String c s)) default = Some (String c s)) /\
  (forall c s, resolve_credential None (Some (String c s)) = Some (String c s)) /\
  resolve_credential None None = None /\
  (forall default, resolve_credential (Some EmptyString) default = resolve_credential None default) /\
  resolve_credential None (Some EmptyString) = None /\
  (* what the helper does with the two resolved values *)
  match resolve_credential name (GALAXY_AP_NAME settings),
        resolve_credential password (GALAXY_AP_PASSWORD settings) with
  | Some n, Some p =>
      exists request,
        calls run.2 = calls w ++ [request] /\
        req_headers request !! "galaxy-ap-name" = Some n /\
        req_headers request !! "galaxy-ap-password" = Some p
  | _, _ => run = (Raise (APIConnectionError credentials_message), w)
  end /\
  mentions credentials_message "via env/.env" /\
  mentions credentials_message "as request headers".
Proof.
  intros run.
  split; [reflexivity|]. split; [reflexivity|]. split; [reflexivity|].
  split; [reflexivity|]. split; [reflexivity|].
  split; [|exact credentials_message_mentions].
  destruct (resolve_credential name (GALAXY_AP_NAME settings)) as [n|] eqn:Hn;
    [destruct (resolve_credential password (GALAXY_AP_PASSWORD settings)) as [p|] eqn:Hp|].
  - subst run.
    rewrite (call_resolved api_url search_type request_body settings
               name password sid ct w n p Hn Hp).
    eexists. split.
    + destruct (upstream _ _) as [?|?|r]; [reflexivity|reflexivity|].
      destruct (is_success r); [destruct (json_loads _)|]; reflexivity.
    + cbn [req_headers].
      pose proof (outbound_headers_mandatory n p search_type sid ct) as (? & ? & _).
      by split.
  - apply call_unresolved. by right.
  - apply call_unresolved. by left.
Qed.

(** C4. With resolved credentials the POST carries exactly the four
    mandatory headers (name, secret, search type, JSON content type), plus
    the client session id and the client type, each only when the caller
    supplied it; a session id that was not supplied leaves no key behind. *)
Theorem outbound_header_set
    api_url search_type request_body settings name password sid ct w n p :
  resolve_credential name (GALAXY_AP_NAME settings) = Some n ->
  resolve_credential password (GALAXY_AP_PASSWORD settings) = Some p ->
  let run := call_enformion_api api_url search_type request_body settings
               name password sid ct w in
  exists request,
    calls run.2 = calls w ++ [request] /\
    dom (req_headers request)
    = ({[ "galaxy-ap-name"; "galaxy-ap-password"; "galaxy-search-type"; "Content-Type" ]}
       ∪ (if truthy_str sid then {[ "galaxy-client-session-id" ]} else ∅)
       ∪ (if truthy_str ct then {[ "galaxy-client-type" ]} else ∅) : gset string) /\
    req_headers request !! "galaxy-ap-name" = Some n /\
    req_headers request !! "galaxy-ap-password" = Some p /\
    req_headers request !! "galaxy-search-type" = Some search_type /\
    req_headers request !! "Content-Type" = Some "application/json" /\
    req_headers request !! "galaxy-client-session-id" = (if truthy_str sid then sid else None) /\
    req_headers request !! "galaxy-client-type" = (if truthy_str ct then ct else None) /\
    (sid = None -> "galaxy-client-session-id" ∉ dom (req_headers request)).
Proof.
  intros Hn Hp run. subst run.
  rewrite (call_resolved api_url search_type request_body settings
             name password sid ct w n p Hn Hp).
  eexists. split.
  { destruct (upstream _ _) as [?|?|r]; [reflexivity|reflexivity|].
    destruct (is_success r); [destruct (json_loads _)|]; reflexivity. }
  cbn [req_headers].
  pose proof (outbound_headers_mandatory n p search_type sid ct) as (? & ? & ? & ?).
  pose proof (outbound_headers_optional n p search_type sid ct) as (Hs & ?).
  split; [apply outbound_headers_dom|].
  repeat (split; [done|]).
  intros ->. apply not_elem_of_dom. by rewrite Hs.
Qed.

(** C5. Once the POST is issued: a timeout or another request failure
    raises the connectivity error whose message ends with the cause; a
    status outside 200..299 logs status and raw body at ERROR and raises the
    upstream-rejection error with one fixed message; a 2xx answer returns
    the parsed body as it is, and a 2xx body that is not JSON lets the
    decoder's own error through. *)
Theorem outcome_classification
    api_url search_type request_body settings name password sid ct w n p :
  resolve_credential name (GALAXY_AP_NAME settings) = Some n ->
  resolve_credential password (GALAXY_AP_PASSWORD settings) = Some p ->
  let run := call_enformion_api api_url search_type request_body settings
               name password sid ct w in
  let request := {| req_url := api_url; req_json := request_body;
                    req_headers := outbound_headers n p search_type sid ct;
                    req_timeout := 15 |} in
  let sent := {| calls := calls w ++ [request]; log := log w |} in
  match upstream (calls w) request with
  | TimedOut cause =>
      run = (Raise (APIConnectionError
                      ("Request to EnformionGO API timed out: " +:+ cause)), sent)
  | RequestFailed cause =>
      run = (Raise (APIConnectionError
                      ("Error communicating with EnformionGO API: " +:+ cause)), sent)
  | Responded response =>
      if (200 <=? status_code response) && (status_code response <=? 299) then
        match json_loads (text response) with
        | Some body => run = (Return body, sent)
        | None => run = (Raise (JSONDecodeError (text response)), sent)
        end
      else
        run = (Raise (InvalidRequestError "The request to the upstream service failed."),
               {| calls := calls sent;
                  log := log w ++
                    [(ERROR, "Invalid request to EnformionGO API. Status: "
                             +:+ pretty (status_code response)
                             +:+ ", Response: " +:+ text response)] |})
  end.
Proof.
  intros Hn Hp run request sent. subst run.
  rewrite (call_resolved api_url search_type request_body settings
             name password sid ct w n p Hn Hp).
  fold request.
  destruct (upstream (calls w) request) as [cause|cause|r]; [reflexivity|reflexivity|].
  fold (is_success r).
  destruct (is_success r); [destruct (json_loads (text r))|]; reflexivity.
Qed.

(** C6. One call of the helper issues at most one POST: exactly one when
    both credentials resolve, none when they do not, whatever the upstream
    answers and whatever the body parser says. *)
Theorem at_most_one_post
    api_url search_type request_body settings name password sid ct w :
  let run := call_enformion_api api_url search_type request_body settings
               name password sid ct w in
  calls run.2 =
    calls w ++
    match resolve_credential name (GALAXY_AP_NAME settings),
          resolve_credential password (GALAXY_AP_PASSWORD settings) with
    | Some n, Some p =>
        [ {| req_url := api_url; req_json := request_body;
             req_headers := outbound_headers n p search_type sid ct;
             req_timeout := 15 |} ]
    | _, _ => []
    end.
Proof.
  intros run. subst run.
  destruct (resolve_credential name (GALAXY_AP_NAME settings)) as [n|] eqn:Hn;
    [destruct (resolve_credential password (GALAXY_AP_PASSWORD settings)) as [p|] eqn:Hp|].
  - rewrite (call_resolved api_url search_type request_body settings
               name password sid ct w n p Hn Hp).
    destruct (upstream _ _) as [?|?|r]; [reflexivity|reflexivity|].
    destruct (is_success r); [destruct (json_loads _)|]; reflexivity.
  - rewrite call_unresolved by (by right). cbn. by rewrite app_nil_r.
  - rewrite call_unresolved by (by left). cbn. by rewrite app_nil_r.
Qed.

(** ** Claims about the validation gate *)

Lemma validate_contact_enrichment_request_count request w :
  validate_contact_enrichment_request request w =
    if (2 <=? populated (contact_enrichment_groups request))%nat
    then (Return request, w)
    else (Raise (HTTPException 400 contact_enrichment_detail), w).
Proof.
  unfold validate_contact_enrichment_request, contact_enrichment_groups.
  destruct (truthy (getattr request "first_name")),
           (truthy (getattr request "middle_name")),
           (truthy (getattr request "last_name")),
           (truthy (getattr request "phone")),
           (truthy (getattr request "address")),
           (truthy (getattr request "email")); reflexivity.
Qed.

Lemma validate_id_verification_request_count request w :
  validate_id_verification_request request w =
    if (2 <=? populated (id_verification_groups request))%nat
    then (Return request, w)
    else (Raise (HTTPException 400 id_verification_detail), w).
Proof.
  unfold validate_id_verification_request, id_verification_groups.
  destruct (truthy (getattr request "first_name")),
           (truthy (getattr request "middle_name")),
           (truthy (getattr request "last_name")),
           (truthy (getattr request "phones")),
           (truthy (getattr request "address_line_1")),
           (truthy (getattr request "address_line_2")),
           (truthy (getattr request "emails")),
           (truthy (getattr request "ssn")); reflexivity.
Qed.

(** C2. The contact-enrichment gate accepts a request exactly when at
    least two of the four groups (any name part, phone, address, email) are
    populated, a name counting once. A request with fewer is answered with
    HTTP 400 and a detail that names the four criteria, and the handler ends
    there, the world untouched; an accepted one goes on to the helper. Name
    alone and the empty request are rejected; name with phone, and phone
    with address and email, are accepted. *)
Theorem contact_enrichment_gate request settings inbound w :
  (if (2 <=? populated (contact_enrichment_groups request))%nat
   then
     validate_contact_enrichment_request request w = (Return request, w) /\
     contact_enrichment request settings inbound w =
       call_enformion_api
         (CONTACT_ENRICHMENT_API_URL settings)
         (or_default (Header inbound "galaxy-search-type") "DevAPIContactEnrich")
         (model_dump request) settings
         (Header inbound "galaxy-ap-name") (Header inbound "galaxy-ap-password")
         (Header inbound "galaxy-client-session-id") (Header inbound "galaxy-client-type") w
   else
     validate_contact_enrichment_request request w
       = (Raise (HTTPException 400 contact_enrichment_detail), w) /\
     contact_enrichment request settings inbound w
       = (Raise (HTTPException 400 contact_enrichment_detail), w)) /\
  (mentions contact_enrichment_detail "Name" /\
   mentions contact_enrichment_detail "Phone" /\
   mentions contact_enrichment_detail "Address" /\
   mentions contact_enrichment_detail "Email") /\
  populated (contact_enrichment_groups name_only) = 1%nat /\
  validate_contact_enrichment_request name_only w
    = (Raise (HTTPException 400 contact_enrichment_detail), w) /\
  validate_contact_enrichment_request name_and_phone w = (Return name_and_phone, w) /\
  validate_contact_enrichment_request phone_address_email w
    = (Return phone_address_email, w) /\
  validate_contact_enrichment_request empty_request w
    = (Raise (HTTPException 400 contact_enrichment_detail), w).
Proof.
  split.
  { pose proof (validate_contact_enrichment_request_count request w) as Hv.
    unfold contact_enrichment, mbind, Task_bind.
    destruct (2 <=? populated (contact_enrichment_groups request))%nat;
      rewrite Hv; split; reflexivity. }
  split.
  { repeat split.
    - by exists "Contact Enrichment requires at least two search criteria from: ",
        ", Phone, Address, or Email.".
    - by exists "Contact Enrichment requires at least two search criteria from: Name, ",
        ", Address, or Email.".
    - by exists "Contact Enrichment requires at least two search criteria from: Name, Phone, ",
        ", or Email.".
    - by exists "Contact Enrichment requires at least two search criteria from: Name, Phone, Address, or ",
        ".". }
  repeat split.
Qed.

(** C3. The identity-verification gate accepts a request exactly when at
    least two of the five groups (any name part, a non-empty phones list,
    either address line, a non-empty emails list, ssn) are populated. A
    request with fewer is answered with HTTP 400 and a detail that names the
    five criteria, and the handler ends there, the world untouched. Ssn
    alone is rejected; ssn with one phone, and a name with one email, are
    accepted. *)
Theorem id_verification_gate request settings inbound w :
  (if (2 <=? populated (id_verification_groups request))%nat
   then
     validate_id_verification_request request w = (Return request, w) /\
     id_verification request settings inbound w =
       call_enformion_api
         (ID_VERIFICATION_API_URL settings)
         (or_default (Header inbound "galaxy-search-type") "DevAPIIDVerification")
         (model_dump request) settings
         (Header inbound "galaxy-ap-name") (Header inbound "galaxy-ap-password")
         (Header inbound "galaxy-client-session-id") (Header inbound "galaxy-client-type") w
   else
     validate_id_verification_request request w
       = (Raise (HTTPException 400 id_verification_detail), w) /\
     id_verification request settings inbound w
       = (Raise (HTTPException 400 id_verification_detail), w)) /\
  (mentions id_verification_detail "SSN" /\
   mentions id_verification_detail "Name" /\
   mentions id_verification_detail "Phone" /\
   mentions id_verification_detail "Address" /\
   mentions id_verification_detail "Email") /\
  populated (id_verification_groups ssn_only) = 1%nat /\
  validate_id_verification_request ssn_only w
    = (Raise (HTTPException 400 id_verification_detail), w) /\
  validate_id_verification_request ssn_and_phone w = (Return ssn_and_phone, w) /\
  validate_id_verification_request name_and_email w = (Return name_and_email, w).
Proof.
  split.
  { pose proof (validate_id_verification_request_count request w) as Hv.
    unfold id_verification, mbind, Task_bind.
    destruct (2 <=? populated (id_verification_groups request))%nat;
      rewrite Hv; split; reflexivity. }
  split.
  { repeat split.
    - by exists "ID Verification requires at least two criteria from: ",
        ", Name, Phone, Address, or Email.".
    - by exists "ID Verification requires at least two criteria from: SSN, ",
        ", Phone, Address, or Email.".
    - by exists "ID Verification requires at least two criteria from: SSN, Name, ",
        ", Address, or Email.".
    - by exists "ID Verification requires at least two criteria from: SSN, Name, Phone, ",
        ", or Email.".
    - by exists "ID Verification requires at least two criteria from: SSN, Name, Phone, Address, or ",
        ".". }
  repeat split.
Qed.

(** ** Every route proxies *)

Lemma default_tag_rule d :
  default_tag d (Some EmptyString) = default_tag d None /\
  (forall c s t, default_tag d (Some (String c s)) = inr t -> t = String c s).
Proof. split; [reflexivity|]. intros c s t [= <-]. reflexivity. Qed.

Lemma person_tag_rule c s t :
  person_tag (Some (String c s)) = inr t -> t = String c s.
Proof.
  unfold person_tag.
  destruct (String.eqb_spec (String c s) "Person") as [->|_]; [by intros [= <-]|].
  destruct (String.eqb_spec (String c s) "Teaser") as [->|_]; [by intros [= <-]|].
  discriminate.
Qed.

Ltac plain_proxy :=
  eexists (fun _ => None), _, (default_tag _);
  split; [intros; reflexivity | split; [intros _|]; apply default_tag_rule].

Lemma routes_proxy :
  Forall (fun route => on_handler (fun B body_of => proxies B body_of route.1) route.2) routes.
Proof.
  unfold routes.
  repeat (apply Forall_cons; split; [|]); [..|by apply Forall_nil]; cbn [on_handler fst snd].
  all: try (unfold proxies; plain_proxy).
  - exists (fun request =>
              if (2 <=? populated (contact_enrichment_groups request))%nat
              then None else Some (HTTPException 400 contact_enrichment_detail)),
      CONTACT_ENRICHMENT_API_URL, (default_tag "DevAPIContactEnrich").
    split; [|split; [intros _|]; apply default_tag_rule].
    intros. unfold contact_enrichment, mbind, Task_bind.
    rewrite validate_contact_enrichment_request_count.
    by destruct (2 <=? _)%nat.
  - exists (fun _ => None), PERSON_SEARCH_API_URL, person_tag.
    split; [|split; [done|apply person_tag_rule]].
    intros. unfold person_search, person_tag, PersonSearchType_header.
    destruct (Header inbound "galaxy-search-type") as [v|]; [|reflexivity].
    unfold mbind, Task_bind.
    destruct (String.eqb v "Person"); [reflexivity|].
    destruct (String.eqb v "Teaser"); reflexivity.
  - exists (fun request =>
              if (2 <=? populated (id_verification_groups request))%nat
              then None else Some (HTTPException 400 id_verification_detail)),
      ID_VERIFICATION_API_URL, (default_tag "DevAPIIDVerification").
    split; [|split; [intros _|]; apply default_tag_rule].
    intros. unfold id_verification, mbind, Task_bind.
    rewrite validate_id_verification_request_count.
    by destruct (2 <=? _)%nat.
Qed.

(** ** What a proxying handler does *)

Lemma call_post api_url search_type request_body settings name password sid ct w :
  let run := call_enformion_api api_url search_type request_body settings
               name password sid ct w in
  run = (Raise (APIConnectionError credentials_message), w) \/
  exists n p,
    resolve_credential name (GALAXY_AP_NAME settings) = Some n /\
    resolve_credential password (GALAXY_AP_PASSWORD settings) = Some p /\
    calls run.2 = calls w ++
      [ {| req_url := api_url; req_json := request_body;
           req_headers := outbound_headers n p search_type sid ct;
           req_timeout := 15 |} ].
Proof.
  intros run. subst run.
  destruct (resolve_credential name (GALAXY_AP_NAME settings)) as [n|] eqn:Hn;
    [destruct (resolve_credential password (GALAXY_AP_PASSWORD settings)) as [p|] eqn:Hp|].
  - right. exists n, p. split; [done|]. split; [done|].
    rewrite (call_resolved api_url search_type request_body settings
               name password sid ct w n p Hn Hp).
    destruct (upstream _ _) as [?|?|r]; [reflexivity|reflexivity|].
    destruct (is_success r); [destruct (json_loads _)|]; reflexivity.
  - left. apply call_unresolved. by right.
  - left. apply call_unresolved. by left.
Qed.

(** The helper cannot tell a blank override from a missing one. *)
Lemma call_blank api_url search_type request_body settings name password sid ct :
  call_enformion_api api_url search_type request_body settings name password sid ct
  = call_enformion_api api_url search_type request_body settings
      (blank_to_none name) (blank_to_none password) (blank_to_none sid) (blank_to_none ct).
Proof.
  destruct name as [[|? ?]|], password as [[|? ?]|],
           sid as [[|? ?]|], ct as [[|? ?]|]; reflexivity.
Qed.

Lemma blank_to_none_insert (inbound : gmap string string) k k' :
  blank_to_none (Header (<[k := EmptyString]> inbound) k')
  = blank_to_none (Header (delete k inbound) k').
Proof.
  unfold Header. destruct (decide (k = k')) as [->|Hne].
  - by rewrite lookup_insert_eq, lookup_delete_eq.
  - by rewrite lookup_insert_ne, lookup_delete_ne.
Qed.

Lemma Header_insert_ne (inbound : gmap string string) k k' :
  k <> k' ->
  Header (<[k := EmptyString]> inbound) k' = Header (delete k inbound) k'.
Proof.
  intros Hne. unfold Header. by rewrite lookup_insert_ne, lookup_delete_ne.
Qed.

Lemma proxies_takes_overrides B body_of path handler :
  proxies B body_of path handler -> takes_overrides B body_of handler.
Proof.
  intros (gate & api_url & tag & Hrun & _ & Htag) body settings inbound w. split.
  - intros inbound' Hagree. rewrite !Hrun. unfold Header.
    rewrite !Hagree; [done|unfold override_headers; set_solver..].
  - rewrite Hrun. destruct (gate body) as [e|]; [left; by exists e|].
    destruct (tag (Header inbound "galaxy-search-type")) as [e|t] eqn:Ht;
      [left; by exists e|].
    destruct (call_post (api_url settings) t (body_of body) settings
                (Header inbound "galaxy-ap-name") (Header inbound "galaxy-ap-password")
                (Header inbound "galaxy-client-session-id")
                (Header inbound "galaxy-client-type") w)
      as [Hsame|(n & p & Hn & Hp & Hcalls)]; [left; by eexists|].
    right. eexists. split; [exact Hcalls|]. cbn [req_headers].
    pose proof (outbound_headers_mandatory n p t
                  (Header inbound "galaxy-client-session-id")
                  (Header inbound "galaxy-client-type")) as (Hhn & Hhp & Hht & _).
    pose proof (outbound_headers_optional n p t
                  (Header inbound "galaxy-client-session-id")
                  (Header inbound "galaxy-client-type")) as (Hhs & Hhc).
    unfold Header in *.
    intros k c s Hk Hv. unfold override_headers in Hk.
    repeat (apply elem_of_cons in Hk as [->|Hk]); [..|by apply elem_of_nil in Hk].
    + rewrite Hv in Hn. cbn in Hn. by rewrite Hhn, <- Hn.
    + rewrite Hv in Hp. cbn in Hp. by rewrite Hhp, <- Hp.
    + by rewrite Hhs, Hv.
    + by rewrite Hhc, Hv.
    + rewrite Hv in Ht. apply Htag in Ht. by rewrite Hht, Ht.
Qed.

Lemma proxies_forwards B body_of path handler :
  proxies B body_of path handler -> forwards B body_of handler.
Proof.
  intros (gate & api_url & tag & Hrun & _ & _) body settings inbound w.
  rewrite Hrun. destruct (gate body) as [e|]; [left; by exists e|].
  destruct (tag (Header inbound "galaxy-search-type")) as [e|t]; [left; by exists e|].
  destruct (call_post (api_url settings) t (body_of body) settings
              (Header inbound "galaxy-ap-name") (Header inbound "galaxy-ap-password")
              (Header inbound "galaxy-client-session-id")
              (Header inbound "galaxy-client-type") w)
    as [Hsame|(n & p & _ & _ & Hcalls)]; [left; by eexists|].
  right. eexists. split; [exact Hcalls|reflexivity].
Qed.

Lemma proxies_blank_is_missing B body_of path handler k :
  proxies B body_of path handler ->
  k ∈ override_headers ->
  k = "galaxy-search-type" -> path <> "/person-search" ->
  blank_is_missing k B body_of handler.
Proof.
  intros (gate & api_url & tag & Hrun & Hblank & _) _ -> Hpath body settings inbound w.
  rewrite !Hrun. destruct (gate body); [done|].
  rewrite (Header_insert_ne _ "galaxy-search-type" "galaxy-ap-name") by done.
  rewrite (Header_insert_ne _ "galaxy-search-type" "galaxy-ap-password") by done.
  rewrite (Header_insert_ne _ "galaxy-search-type" "galaxy-client-session-id") by done.
  rewrite (Header_insert_ne _ "galaxy-search-type" "galaxy-client-type") by done.
  replace (Header (<["galaxy-search-type" := EmptyString]> inbound) "galaxy-search-type")
    with (Some EmptyString) by (unfold Header; by rewrite lookup_insert_eq).
  replace (Header (delete "galaxy-search-type" inbound) "galaxy-search-type")
    with (@None string) by (unfold Header; by rewrite lookup_delete_eq).
  by rewrite (Hblank Hpath).
Qed.

Lemma proxies_blank_is_missing_other B body_of path handler k :
  proxies B body_of path handler ->
  k ∈ override_headers ->
  k <> "galaxy-search-type" ->
  blank_is_missing k B body_of handler.
Proof.
  intros (gate & api_url & tag & Hrun & _ & _) _ Hk body settings inbound w.
  rewrite !Hrun. destruct (gate body); [done|].
  rewrite (Header_insert_ne _ k "galaxy-search-type") by done.
  destruct (tag _); [done|].
  rewrite call_blank, (call_blank _ _ _ _ (Header (delete _ _) _)).
  by rewrite !blank_to_none_insert.
Qed.

(** ** Claims about the routes *)

(** C9 (amended). On every endpoint a blank [galaxy-ap-name],
    [galaxy-ap-password], [galaxy-client-session-id] or
    [galaxy-client-type] header behaves as the header left out, and so does
    a blank [galaxy-search-type] on every endpoint other than
    [/person-search]. *)
Theorem blank_override_is_missing :
  Forall (fun route =>
            on_handler (fun B body_of handler =>
              forall k, k ∈ override_headers ->
                        (k = "galaxy-search-type" -> route.1 <> "/person-search") ->
                        blank_is_missing k B body_of handler) route.2) routes.
Proof.
  eapply Forall_impl; [apply routes_proxy|].
  intros [path [cls handler|handler]]; cbn; intros Hp k Hk Hst;
    (destruct (decide (k = "galaxy-search-type")) as [->|Hne];
     [eapply proxies_blank_is_missing; eauto
     |eapply proxies_blank_is_missing_other; eauto]).
Qed.

(** C10. [/business-search] and [/business-search-v2] behave alike on every
    request: both are registered for the same request model, both post to
    [BUSINESS_SEARCH_V2_API_URL] with the default search type
    ["BusinessV2Search"], and both give the same result in the same world. *)
Theorem business_search_equivalent request settings inbound w :
  business_search request settings inbound w
  = business_search_v2 request settings inbound w /\
  business_search_v2 request settings inbound w
  = call_enformion_api
      (BUSINESS_SEARCH_V2_API_URL settings)
      (or_default (Header inbound "galaxy-search-type") "BusinessV2Search")
      (model_dump request) settings
      (Header inbound "galaxy-ap-name") (Header inbound "galaxy-ap-password")
      (Header inbound "galaxy-client-session-id") (Header inbound "galaxy-client-type") w /\
  ("/business-search", SchemaBacked "BusinessSearchRequest" business_search) ∈ routes /\
  ("/business-search-v2", SchemaBacked "BusinessSearchRequest" business_search_v2) ∈ routes.
Proof.
  split; [reflexivity|]. split; [reflexivity|].
  split; apply list_elem_of_lookup.
  - by exists 13%nat.
  - by exists 14%nat.
Qed.

(** ** Beyond the claims: the helper *)

Lemma call_outcome api_url search_type request_body settings name password sid ct w :
  let run := call_enformion_api api_url search_type request_body settings
               name password sid ct w in
  ((resolve_credential name (GALAXY_AP_NAME settings) = None \/
    resolve_credential password (GALAXY_AP_PASSWORD settings) = None) /\
   run = (Raise (APIConnectionError credentials_message), w)) \/
  exists n p,
    resolve_credential name (GALAXY_AP_NAME settings) = Some n /\
    resolve_credential password (GALAXY_AP_PASSWORD settings) = Some p /\
    let request := {| req_url := api_url; req_json := request_body;
                      req_headers := outbound_headers n p search_type sid ct;
                      req_timeout := 15 |} in
    let sent := {| calls := calls w ++ [request]; log := log w |} in
    run = match upstream (calls w) request with
          | TimedOut cause =>
              (Raise (APIConnectionError
                        ("Request to EnformionGO API timed out: " +:+ cause)), sent)
          | RequestFailed cause =>
              (Raise (APIConnectionError
                        ("Error communicating with EnformionGO API: " +:+ cause)), sent)
          | Responded r =>
              if is_success r then
                match json_loads (text r) with
                | Some j => (Return j, sent)
                | None => (Raise (JSONDecodeError (text r)), sent)
                end
              else
                (Raise (InvalidRequestError upstream_failed_message),
                 {| calls := calls w ++ [request];
                    log := log w ++
                      [(ERROR, "Invalid request to EnformionGO API. Status: "
                               +:+ pretty (status_code r) +:+ ", Response: " +:+ text r)] |})
          end.
Proof.
  intros run. subst run.
  destruct (resolve_credential name (GALAXY_AP_NAME settings)) as [n|] eqn:Hn;
    [destruct (resolve_credential password (GALAXY_AP_PASSWORD settings)) as [p|] eqn:Hp|].
  - right. exists n, p. split; [done|]. split; [done|]. by apply call_resolved.
  - left. split; [by right|]. apply call_unresolved. by right.
  - left. split; [by left|]. apply call_unresolved. by left.
Qed.

(** X1. The helper returns a value exactly when both credentials resolve,
    the upstream answers the POST with a status from 200 to 299, and the
    body of that answer parses; the value is the parsed body. *)
Theorem returns_iff_upstream_success
    api_url search_type request_body settings name password sid ct w j :
  (call_enformion_api api_url search_type request_body settings
     name password sid ct w).1 = Return j
  <->
  exists n p r,
    resolve_credential name (GALAXY_AP_NAME settings) = Some n /\
    resolve_credential password (GALAXY_AP_PASSWORD settings) = Some p /\
    upstream (calls w)
      {| req_url := api_url; req_json := request_body;
         req_headers := outbound_headers n p search_type sid ct;
         req_timeout := 15 |} = Responded r /\
    200 <= status_code r <= 299 /\
    json_loads (text r) = Some j.
Proof.
  split.
  - destruct (call_outcome api_url search_type request_body settings
                name password sid ct w) as [[_ ->]|(n & p & Hn & Hp & ->)];
      [discriminate|].
    cbn zeta.
    destruct (upstream _ _) as [c|c|r] eqn:Hu; [discriminate..|].
    destruct (is_success r) eqn:Hs; [|discriminate].
    destruct (json_loads (text r)) as [j'|] eqn:Hj; [|discriminate].
    cbn. intros [= ->]. exists n, p, r. repeat split; try done.
    all: unfold is_success in Hs; apply andb_true_iff in Hs as [H1 H2]; lia.
  - intros (n & p & r & Hn & Hp & Hu & Hs & Hj).
    rewrite (call_resolved api_url search_type request_body settings
               name password sid ct w n p Hn Hp), Hu.
    replace (is_success r) with true; [by rewrite Hj|].
    symmetry. unfold is_success. apply andb_true_iff. lia.
Qed.

(** The helper on settings with a blank credential, and on the same
    settings with that credential unset. *)
Lemma call_blank_default
    api_url search_type request_body settings name password sid ct :
  call_enformion_api api_url search_type request_body settings name password sid ct
  = call_enformion_api api_url search_type request_body
      (set_credentials settings
         (blank_to_none (GALAXY_AP_NAME settings))
         (blank_to_none (GALAXY_AP_PASSWORD settings)))
      name password sid ct.
Proof.
  unfold call_enformion_api. cbn [set_credentials GALAXY_AP_NAME GALAXY_AP_PASSWORD].
  destruct (GALAXY_AP_NAME settings) as [[|? ?]|],
           (GALAXY_AP_PASSWORD settings) as [[|? ?]|],
           name as [[|? ?]|], password as [[|? ?]|]; reflexivity.
Qed.

(** ** Beyond the claims: every route *)

Lemma default_tag_not_blank c d h t :
  default_tag (String c d) h = inr t -> t <> EmptyString.
Proof. intros [= <-]. by destruct h as [[|? ?]|]. Qed.

Lemma person_tag_not_blank h t : person_tag h = inr t -> t <> EmptyString.
Proof.
  unfold person_tag. destruct h as [v|]; [|by intros [= <-]].
  destruct (String.eqb v "Person"); [by intros [= <-]|].
  destruct (String.eqb v "Teaser"); [by intros [= <-]|discriminate].
Qed.

Ltac url_and_tag tag_not_blank :=
  split; [reflexivity|]; split; [apply tag_not_blank|reflexivity].

Ltac plain_proxy_strictly :=
  eexists (fun _ => None), _, (default_tag _);
  split; [intros; reflexivity|];
  split; [intros ? ? [=]|];
  split; [intros ? ? [=]|url_and_tag default_tag_not_blank].

Lemma routes_proxy_strictly :
  Forall (fun route =>
            on_handler (fun B body_of => proxies_strictly B body_of route.1) route.2)
         routes.
Proof.
  unfold routes.
  repeat (apply Forall_cons; split; [|]); [..|by apply Forall_nil]; cbn [on_handler fst snd].
  all: try (unfold proxies_strictly; plain_proxy_strictly).
  - exists (fun request =>
              if (2 <=? populated (contact_enrichment_groups request))%nat
              then None else Some (HTTPException 400 contact_enrichment_detail)),
      CONTACT_ENRICHMENT_API_URL, (default_tag "DevAPIContactEnrich").
    split; [|split; [|split; [intros ? ? [=]|url_and_tag default_tag_not_blank]]].
    + intros. unfold contact_enrichment, mbind, Task_bind.
      rewrite validate_contact_enrichment_request_count.
      by destruct (2 <=? _)%nat.
    + intros body e. destruct (2 <=? _)%nat; intros [= <-].
      split; [by left|by eexists].
  - exists (fun _ => None), PERSON_SEARCH_API_URL, person_tag.
    split; [|split; [intros ? ? [=]|split; [|url_and_tag person_tag_not_blank]]].
    + intros. unfold person_search, person_tag, PersonSearchType_header.
      destruct (Header inbound "galaxy-search-type") as [v|]; [|reflexivity].
      unfold mbind, Task_bind.
      destruct (String.eqb v "Person"); [reflexivity|].
      destruct (String.eqb v "Teaser"); reflexivity.
    + intros h e. unfold person_tag. destruct h as [v|]; [|discriminate].
      destruct (String.eqb_spec v "Person"); [discriminate|].
      destruct (String.eqb_spec v "Teaser"); [discriminate|].
      intros [= <-]. split; [done|by exists v].
  - exists (fun request =>
              if (2 <=? populated (id_verification_groups request))%nat
              then None else Some (HTTPException 400 id_verification_detail)),
      ID_VERIFICATION_API_URL, (default_tag "DevAPIIDVerification").
    split; [|split; [|split; [intros ? ? [=]|url_and_tag default_tag_not_blank]]].
    + intros. unfold id_verification, mbind, Task_bind.
      rewrite validate_id_verification_request_count.
      by destruct (2 <=? _)%nat.
    + intros body e. destruct (2 <=? _)%nat; intros [= <-].
      split; [by right|by eexists].
Qed.

Lemma outbound_headers_names n p search_type sid ct :
  dom (outbound_headers n p search_type sid ct) ⊆ outbound_header_names.
Proof.
  rewrite outbound_headers_dom. unfold outbound_header_names.
  intros x Hx.
  repeat (apply elem_of_union in Hx as [Hx|Hx]).
  all: try (destruct (truthy_str sid); [|by apply elem_of_empty in Hx]).
  all: try (destruct (truthy_str ct); [|by apply elem_of_empty in Hx]).
  all: rewrite elem_of_singleton in Hx; subst x.
  all: rewrite !elem_of_union, !elem_of_singleton; tauto.
Qed.

Ltac run_helper :=
  lazymatch goal with
  | |- context [call_enformion_api ?u ?t ?b ?st ?a1 ?a2 ?a3 ?a4 ?w] =>
      let Hn := fresh "Hn" in
      let Hp := fresh "Hp" in
      let n := fresh "n" in
      let p := fresh "p" in
      let r := fresh "r" in
      destruct (call_outcome u t b st a1 a2 a3 a4 w)
        as [[Hn ->]|(n & p & Hn & Hp & ->)];
      [|cbn zeta;
        destruct (upstream _ _) as [?|?|r];
        [| |destruct (is_success r); [destruct (json_loads (text r))|]]]
  end.

Lemma proxies_posts_at_most_once B body_of path handler :
  proxies_strictly B body_of path handler -> posts_at_most_once B body_of handler.
Proof.
  intros (gate & api_url & tag & Hrun & _) body settings inbound w.
  assert (Hnone : forall (r : Result json),
             exists posts,
               calls (r, w).2 = calls w ++ posts /\ (length posts <= 1)%nat /\
               Forall (fun request =>
                         req_timeout request = 15 /\
                         req_headers request !! "Content-Type" = Some "application/json" /\
                         dom (req_headers request) ⊆ outbound_header_names) posts).
  { intros r. exists []. split; [cbn; by rewrite app_nil_r|].
    split; [cbn; lia|constructor]. }
  rewrite Hrun. destruct (gate body) as [e|]; [apply Hnone|].
  destruct (tag _) as [e|t]; [apply Hnone|].
  run_helper; [apply Hnone|..];
    (eexists [_]; split; [reflexivity|]; split; [cbn; lia|];
     apply Forall_singleton; cbn [req_timeout req_headers];
     split; [done|]; split; [apply outbound_headers_mandatory|apply outbound_headers_names]).
Qed.

Lemma proxies_logs_only_rejections B body_of path handler :
  proxies_strictly B body_of path handler -> logs_only_rejections B body_of handler.
Proof.
  intros (gate & api_url & tag & Hrun & Hgate & Htag & _) body settings inbound w.
  rewrite Hrun. destruct (gate body) as [e|] eqn:Hg.
  { destruct (Hgate _ _ Hg) as (_ & d & ->). done. }
  destruct (tag _) as [e|t] eqn:Ht.
  { destruct (Htag _ _ Ht) as (_ & v & _ & _ & _ & ->). done. }
  run_helper; cbn; try done.
  split; [done|]. by eexists.
Qed.

Lemma proxies_refuses_without_credentials B body_of path handler :
  proxies_strictly B body_of path handler -> refuses_without_credentials B body_of handler.
Proof.
  intros (gate & api_url & tag & Hrun & _) body settings inbound w Hmissing.
  rewrite Hrun. destruct (gate body) as [e|]; [by exists e|].
  destruct (tag _) as [e|t]; [by exists e|].
  eexists. by apply call_unresolved.
Qed.

Lemma proxies_posts_any_body B body_of path handler :
  proxies_strictly B body_of path handler -> posts_any_body path B body_of handler.
Proof.
  intros (gate & api_url & tag & Hrun & Hgate & Htag & _)
         body settings inbound w n p _ Hce Hidv Hps Hn Hp.
  rewrite Hrun. destruct (gate body) as [e|] eqn:Hg.
  { destruct (Hgate _ _ Hg) as ([?|?] & _); done. }
  destruct (tag _) as [e|t] eqn:Ht.
  { destruct (Htag _ _ Ht) as (Hpath & v & Hv & Hperson & Hteaser & _).
    destruct (Hps Hpath) as [H|[H|H]]; rewrite H in Hv; congruence. }
  destruct (call_outcome (api_url settings) t (body_of body) settings
              (Header inbound "galaxy-ap-name") (Header inbound "galaxy-ap-password")
              (Header inbound "galaxy-client-session-id")
              (Header inbound "galaxy-client-type") w)
    as [[[Hnone|Hnone] _]|(n' & p' & Hn' & Hp' & ->)]; [congruence..|].
  assert (n' = n) as -> by congruence. assert (p' = p) as -> by congruence.
  eexists. split.
  { cbn zeta. destruct (upstream _ _) as [?|?|r]; [reflexivity|reflexivity|].
    destruct (is_success r); [destruct (json_loads _)|]; reflexivity. }
  cbn [req_json req_headers]. split; [done|].
  pose proof (outbound_headers_mandatory n p t
                (Header inbound "galaxy-client-session-id")
                (Header inbound "galaxy-client-type")) as (? & ? & _).
  done.
Qed.

Lemma proxies_blank_default_is_unset B body_of path handler :
  proxies_strictly B body_of path handler -> blank_default_is_unset B body_of handler.
Proof.
  intros (gate & api_url & tag & Hrun & _ & _ & Hurl & _) body settings inbound w.
  rewrite !Hrun. destruct (gate body); [done|]. destruct (tag _); [done|].
  by rewrite Hurl, <- call_blank_default.
Qed.

Ltac every_route lemma :=
  eapply Forall_impl; [apply routes_proxy_strictly|];
  intros [path [cls handler|handler]]; cbn; apply lemma.

(** X2. Every endpoint issues at most one POST per inbound request; the
    POST has the 15 second timeout and the JSON content type, and its
    header names are among the six the helper knows: no other inbound
    header is passed on. *)
Theorem every_route_posts_at_most_once :
  Forall (fun route => on_handler posts_at_most_once route.2) routes.
Proof. every_route proxies_posts_at_most_once. Qed.

(** X3. On every endpoint the log grows by one ERROR record exactly when
    the request ends in the upstream-rejection error; refused requests,
    missing credentials, timeouts, connection failures, unparsable answers
    and successes leave the log as it was. *)
Theorem every_route_logs_only_rejections :
  Forall (fun route => on_handler logs_only_rejections route.2) routes.
Proof. every_route proxies_logs_only_rejections. Qed.

(** X5. On every endpoint, when the name or the secret is neither sent as a
    header nor configured, the request fails and nothing is posted or
    logged: the server runs without credentials, the requests do not. *)
Theorem every_route_refuses_without_credentials :
  Forall (fun route => on_handler refuses_without_credentials route.2) routes.
Proof. every_route proxies_refuses_without_credentials. Qed.

(** X6. Only [/contact-enrichment] and [/id-verification] look into the
    body before forwarding. On every other endpoint, with both credentials
    resolved (and on [/person-search] a search type that is missing,
    ["Person"] or ["Teaser"]), any parsed request and any JSON object
    payload is posted, once, with the two resolved credentials. *)
Theorem ungated_routes_post_any_body :
  Forall (fun route => on_handler (posts_any_body route.1) route.2) routes.
Proof. every_route proxies_posts_any_body. Qed.

(** X7. On every endpoint a configured name or secret that is the empty
    string counts as not configured. *)
Theorem every_route_blank_default_is_unset :
  Forall (fun route => on_handler blank_default_is_unset route.2) routes.
Proof. every_route proxies_blank_default_is_unset. Qed.

(** X8. Each path is registered once: no two handlers share a path. *)
Theorem route_paths_distinct : NoDup routes.*1.
Proof.
  unfold routes. cbn [fmap list_fmap fst].
  apply (bool_decide_unpack _). vm_compute. reflexivity.
Qed.

Lemma resolve_credential_not_blank override default v :
  resolve_credential override default = Some v -> v <> EmptyString.
Proof.
  destruct override as [[|? ?]|], default as [[|? ?]|]; cbn; by intros [= <-].
Qed.

Lemma outbound_headers_not_blank n p search_type sid ct k v :
  n <> EmptyString -> p <> EmptyString -> search_type <> EmptyString ->
  outbound_headers n p search_type sid ct !! k = Some v -> v <> EmptyString.
Proof.
  intros Hn Hp Ht Hl. unfold outbound_headers in Hl. cbn zeta in Hl.
  assert (Hstr : forall o : option string, truthy_str o = true -> str_of o <> EmptyString).
  { by intros [[|? ?]|]. }
  destruct (truthy_str sid) eqn:Hsid, (truthy_str ct) eqn:Hct.
  all: repeat match type of Hl with
       | <[_:=_]> _ !! _ = _ => apply lookup_insert_Some in Hl as [[<- <-]|[? Hl]]
       | {[_ := _]} !! _ = _ => apply lookup_singleton_Some in Hl as [<- <-]
       end; auto.
  all: discriminate.
Qed.

Lemma no_post_in_place {A} (l : list A) (x : A) (P : Prop) : l = l ++ [x] -> P.
Proof.
  intros H. apply (f_equal length) in H. rewrite length_app in H. cbn in H. lia.
Qed.

Ltac no_post :=
  let H := fresh in intros H; exact (no_post_in_place _ _ _ H).

Lemma proxies_sends_no_blank_header B body_of path handler :
  proxies_strictly B body_of path handler -> sends_no_blank_header B body_of handler.
Proof.
  intros (gate & api_url & tag & Hrun & _ & _ & _ & Htag & _)
         body settings inbound w request.
  rewrite Hrun. destruct (gate body); [no_post|].
  destruct (tag _) as [e|t] eqn:Ht; [no_post|].
  destruct (call_post (api_url settings) t (body_of body) settings
              (Header inbound "galaxy-ap-name") (Header inbound "galaxy-ap-password")
              (Header inbound "galaxy-client-session-id")
              (Header inbound "galaxy-client-type") w)
    as [->|(n & p & Hn & Hp & ->)]; [no_post|].
  intros H k v. apply app_inv_head in H. injection H as <-. cbn [req_headers].
  apply outbound_headers_not_blank;
    eauto using resolve_credential_not_blank.
Qed.

Lemma proxies_posts_to_default_host B body_of path handler :
  proxies_strictly B body_of path handler -> posts_to_default_host B body_of handler.
Proof.
  intros (gate & api_url & tag & Hrun & _ & _ & Hurl & _ & Hhost)
         body name password inbound w request.
  rewrite Hrun. destruct (gate body); [no_post|].
  destruct (tag _) as [e|t]; [no_post|].
  match goal with
  | |- context [call_enformion_api ?u ?t ?b ?st ?a1 ?a2 ?a3 ?a4 ?w] =>
      destruct (call_post u t b st a1 a2 a3 a4 w) as [->|(n & p & _ & _ & ->)]
  end; [no_post|].
  intros H. apply app_inv_head in H. injection H as <-. cbn [req_url].
  by rewrite Hurl.
Qed.

(** X13. No endpoint sends a blank header: in every POST the name, the
    secret, the search type and the content type have a value, and so has
    each of the two optional headers that is present. *)
Theorem every_route_sends_no_blank_header :
  Forall (fun route => on_handler sends_no_blank_header route.2) routes.
Proof. every_route proxies_sends_no_blank_header. Qed.

(** X14. With the URL settings at their defaults, whatever the
    credentials, every endpoint posts to [https://devapi.enformion.com/]. *)
Theorem every_route_posts_to_default_host :
  Forall (fun route => on_handler posts_to_default_host route.2) routes.
Proof. every_route proxies_posts_to_default_host. Qed.

Lemma proxies_relays_upstream_body B body_of path handler :
  proxies_strictly B body_of path handler -> relays_upstream_body B body_of handler.
Proof.
  intros (gate & api_url & tag & Hrun & _) body settings inbound w j.
  rewrite Hrun. destruct (gate body); [discriminate|].
  destruct (tag _) as [e|t]; [discriminate|].
  match goal with
  | |- context [call_enformion_api ?u ?t ?b ?st ?a1 ?a2 ?a3 ?a4 ?w] =>
      destruct (call_outcome u t b st a1 a2 a3 a4 w) as [[_ ->]|(n & p & _ & _ & ->)]
  end; [discriminate|].
  cbn zeta. destruct (upstream _ _) as [?|?|r] eqn:Hu; [discriminate..|].
  destruct (is_success r) eqn:Hs; [|discriminate].
  destruct (json_loads (text r)) as [j'|] eqn:Hj; [|discriminate].
  intros [= ->]. eexists _, r. split; [reflexivity|]. split; [exact Hu|].
  split; [|exact Hj].
  unfold is_success in Hs. apply andb_true_iff in Hs as [H1 H2]. lia.
Qed.

(** X15. Every endpoint relays: a value it returns is the body, parsed and
    otherwise untouched, of an answer with a status from 200 to 299 that
    the upstream gave to the one POST of the request. *)
Theorem every_route_relays_upstream_body :
  Forall (fun route => on_handler relays_upstream_body route.2) routes.
Proof. every_route proxies_relays_upstream_body. Qed.

(** ** Beyond the claims: what is dumped *)

Lemma dump_fields_filter (m : Model) :
  dump_fields m =
    map (fun f => (f.1.2, dump_value f.2))
        (List.filter (fun f => negb (is_none f.2)) m).
Proof.
  induction m as [|[[attr alias] v] m IH]; [reflexivity|].
  destruct v; cbn [dump_fields List.filter is_none negb map fst snd];
    rewrite <- ?IH; reflexivity.
Qed.

Lemma truthy_getattr_field (request : Model) (name : string) :
  truthy (getattr request name) = true ->
  exists alias v, In (name, alias, v) request /\ is_none v = false.
Proof.
  induction request as [|[[attr alias] v] request IH]; cbn [getattr]; [discriminate|].
  destruct (String.eqb_spec attr name) as [->|_].
  - intros Hv. exists alias, v. split; [by left|]. by destruct v.
  - intros Hv. destruct (IH Hv) as (alias' & v' & Hin & Hnone).
    exists alias', v'. split; [by right|done].
Qed.

Lemma two_in_length {A} (x y : A) (l : list A) :
  In x l -> In y l -> x <> y -> (2 <= length l)%nat.
Proof.
  destruct l as [|a [|b l]]; cbn; [tauto| |lia].
  intros [<-|[]] [<-|[]]. congruence.
Qed.

Lemma two_attributes_two_members (request : Model) (a b : string) :
  a <> b ->
  truthy (getattr request a) = true ->
  truthy (getattr request b) = true ->
  (2 <= members (model_dump request))%nat.
Proof.
  intros Hne Ha Hb.
  destruct (truthy_getattr_field request a Ha) as (alias_a & va & Hina & Hva).
  destruct (truthy_getattr_field request b Hb) as (alias_b & vb & Hinb & Hvb).
  unfold model_dump, members. rewrite dump_fields_filter, length_map.
  apply (two_in_length (a, alias_a, va) (b, alias_b, vb)).
  - apply filter_In. cbn. by rewrite Hva.
  - apply filter_In. cbn. by rewrite Hvb.
  - congruence.
Qed.

Ltac two_attributes :=
  match goal with
  | Ha : truthy (getattr ?r ?a) = true, Hb : truthy (getattr ?r ?b) = true |- _ =>
      apply (two_attributes_two_members r a b); [discriminate|exact Ha|exact Hb]
  end.

Lemma contact_enrichment_accepted_members request :
  (2 <=? populated (contact_enrichment_groups request))%nat = true ->
  (2 <= members (model_dump request))%nat.
Proof.
  unfold contact_enrichment_groups.
  destruct (truthy (getattr request "first_name")) eqn:?,
           (truthy (getattr request "middle_name")) eqn:?,
           (truthy (getattr request "last_name")) eqn:?,
           (truthy (getattr request "phone")) eqn:?,
           (truthy (getattr request "address")) eqn:?,
           (truthy (getattr request "email")) eqn:?;
    cbn; intros Hcount; try discriminate Hcount; two_attributes.
Qed.

Lemma id_verification_accepted_members request :
  (2 <=? populated (id_verification_groups request))%nat = true ->
  (2 <= members (model_dump request))%nat.
Proof.
  unfold id_verification_groups.
  destruct (truthy (getattr request "first_name")) eqn:?,
           (truthy (getattr request "middle_name")) eqn:?,
           (truthy (getattr request "last_name")) eqn:?,
           (truthy (getattr request "phones")) eqn:?,
           (truthy (getattr request "address_line_1")) eqn:?,
           (truthy (getattr request "address_line_2")) eqn:?,
           (truthy (getattr request "emails")) eqn:?,
           (truthy (getattr request "ssn")) eqn:?;
    cbn; intros Hcount; try discriminate Hcount; two_attributes.
Qed.

(** X10. What [/contact-enrichment] posts is an object of at least two
    members: the criteria that let the request through are still there
    after the dump. *)
Theorem contact_enrichment_posts_two_members search_request settings inbound w request :
  calls (contact_enrichment search_request settings inbound w).2 = calls w ++ [request] ->
  (2 <= members (req_json request))%nat.
Proof.
  unfold contact_enrichment, mbind, Task_bind.
  rewrite validate_contact_enrichment_request_count.
  destruct (2 <=? populated (contact_enrichment_groups search_request))%nat eqn:Hcount.
  - match goal with
    | |- context [call_enformion_api ?u ?t ?b ?st ?a1 ?a2 ?a3 ?a4 ?w] =>
        destruct (call_post u t b st a1 a2 a3 a4 w) as [->|(n & p & _ & _ & ->)]
    end.
    + no_post.
    + intros H. apply app_inv_head in H. injection H as <-.
      cbn [req_json]. by apply contact_enrichment_accepted_members.
  - no_post.
Qed.

(** X11. What [/id-verification] posts is an object of at least two
    members. *)
Theorem id_verification_posts_two_members search_request settings inbound w request :
  calls (id_verification search_request settings inbound w).2 = calls w ++ [request] ->
  (2 <= members (req_json request))%nat.
Proof.
  unfold id_verification, mbind, Task_bind.
  rewrite validate_id_verification_request_count.
  destruct (2 <=? populated (id_verification_groups search_request))%nat eqn:Hcount.
  - match goal with
    | |- context [call_enformion_api ?u ?t ?b ?st ?a1 ?a2 ?a3 ?a4 ?w] =>
        destruct (call_post u t b st a1 a2 a3 a4 w) as [->|(n & p & _ & _ & ->)]
    end.
    + no_post.
    + intros H. apply app_inv_head in H. injection H as <-.
      cbn [req_json]. by apply id_verification_accepted_members.
  - no_post.
Qed.

(** X12. The search-type header of [/person-search] and the enum agree in
    both directions: a header value is accepted as a member exactly when it
    is that member's value, letter case included, and a missing header
    means [person]. *)
Theorem PersonSearchType_header_round_trip s t w :
  (PersonSearchType_header (Some s) w = (Return t, w) <-> PersonSearchType_value t = s) /\
  PersonSearchType_header (Some (PersonSearchType_value t)) w = (Return t, w) /\
  PersonSearchType_header None w = (Return person, w).
Proof.
  split; [|split; [by destruct t|reflexivity]].
  unfold PersonSearchType_header, mret, Task_ret, raise.
  destruct (String.eqb_spec s "Person") as [->|Hp].
  { destruct t; cbn; split; intros H; first [reflexivity|discriminate H]. }
  destruct (String.eqb_spec s "Teaser") as [->|Ht].
  { destruct t; cbn; split; intros H; first [reflexivity|discriminate H]. }
  split; [discriminate|]. destruct t; cbn; congruence.
Qed.

(** ** Every route, for a body it lets through *)

Ltac plain_proxy_exactly :=
  eexists _, (default_tag _);
  split; [intros; reflexivity|];
  intros inbound _; eexists; split; [reflexivity|];
  unfold Header; by intros c s ->.

Lemma routes_proxy_exactly : Forall (on_route proxies_exactly) routes.
Proof.
  unfold routes.
  repeat (apply Forall_cons; split; [|]); [..|by apply Forall_nil];
    unfold on_route; cbn [fst snd].
  all: try (unfold proxies_exactly; plain_proxy_exactly).
  - exists CONTACT_ENRICHMENT_API_URL, (default_tag "DevAPIContactEnrich").
    split.
    + intros body settings inbound w Hgate. change (route_gate _ body) with
        (2 <=? populated (contact_enrichment_groups body))%nat in Hgate.
      unfold contact_enrichment, mbind, Task_bind.
      by rewrite validate_contact_enrichment_request_count, Hgate.
    + intros inbound _; eexists; split; [reflexivity|].
      unfold Header; by intros c s ->.
  - exists PERSON_SEARCH_API_URL, person_tag.
    split.
    + intros. unfold person_search, person_tag, PersonSearchType_header.
      destruct (Header inbound "galaxy-search-type") as [v|]; [|reflexivity].
      unfold mbind, Task_bind.
      destruct (String.eqb v "Person"); [reflexivity|].
      destruct (String.eqb v "Teaser"); reflexivity.
    + intros inbound Hst. unfold Header.
      destruct (Hst eq_refl) as [-> | [-> | ->]]; eexists; (split; [reflexivity|]);
        by intros c s [= <- <-].
  - exists ID_VERIFICATION_API_URL, (default_tag "DevAPIIDVerification").
    split.
    + intros body settings inbound w Hgate. change (route_gate _ body) with
        (2 <=? populated (id_verification_groups body))%nat in Hgate.
      unfold id_verification, mbind, Task_bind.
      by rewrite validate_id_verification_request_count, Hgate.
    + intros inbound _; eexists; split; [reflexivity|].
      unfold Header; by intros c s ->.
Qed.

Lemma proxies_exactly_posts path B accepted body_of handler :
  proxies_exactly path B accepted body_of handler ->
  forall body settings inbound w n p,
    accepted body ->
    search_type_accepted path inbound ->
    resolve_credential (Header inbound "galaxy-ap-name") (GALAXY_AP_NAME settings) = Some n ->
    resolve_credential (Header inbound "galaxy-ap-password") (GALAXY_AP_PASSWORD settings) = Some p ->
    exists t url,
      (forall c s, inbound !! "galaxy-search-type" = Some (String c s) -> t = String c s) /\
      calls (handler body settings inbound w).2 =
        calls w ++
        [ {| req_url := url;
             req_json := body_of body;
             req_headers :=
               outbound_headers n p t (Header inbound "galaxy-client-session-id")
                 (Header inbound "galaxy-client-type");
             req_timeout := 15 |} ].
Proof.
  intros (api_url & tag & Hrun & Htag) body settings inbound w n p Hacc Hst Hn Hp.
  rewrite (Hrun _ _ _ _ Hacc). destruct (Htag _ Hst) as (t & -> & Ht).
  exists t, (api_url settings). split; [exact Ht|].
  destruct (call_outcome (api_url settings) t (body_of body) settings
              (Header inbound "galaxy-ap-name") (Header inbound "galaxy-ap-password")
              (Header inbound "galaxy-client-session-id")
              (Header inbound "galaxy-client-type") w)
    as [[[Hnone|Hnone] _]|(n' & p' & Hn' & Hp' & ->)]; [congruence..|].
  assert (n' = n) as -> by congruence. assert (p' = p) as -> by congruence.
  cbn zeta. destruct (upstream _ _) as [?|?|r]; [reflexivity|reflexivity|].
  destruct (is_success r); [destruct (json_loads _)|]; reflexivity.
Qed.

Lemma proxies_exactly_accepts_overrides path B accepted body_of handler :
  proxies_exactly path B accepted body_of handler ->
  accepts_overrides path B accepted body_of handler.
Proof.
  intros Hexact body settings inbound w n p Hacc Hst Hn Hp.
  destruct (proxies_exactly_posts _ _ _ _ _ Hexact body settings inbound w n p
              Hacc Hst Hn Hp) as (t & url & Ht & Hcalls).
  eexists. split; [exact Hcalls|]. cbn [req_headers].
  pose proof (outbound_headers_mandatory n p t
                (Header inbound "galaxy-client-session-id")
                (Header inbound "galaxy-client-type")) as (Hhn & Hhp & Hht & _).
  pose proof (outbound_headers_optional n p t
                (Header inbound "galaxy-client-session-id")
                (Header inbound "galaxy-client-type")) as (Hhs & Hhc).
  split; [exact Hhn|]. split; [exact Hhp|].
  unfold Header in *.
  intros k c s Hk Hv. unfold override_headers in Hk.
  repeat (apply elem_of_cons in Hk as [->|Hk]); [..|by apply elem_of_nil in Hk].
  - rewrite Hv in Hn. cbn in Hn. by rewrite Hhn, <- Hn.
  - rewrite Hv in Hp. cbn in Hp. by rewrite Hhp, <- Hp.
  - by rewrite Hhs, Hv.
  - by rewrite Hhc, Hv.
  - by rewrite Hht, (Ht c s Hv).
Qed.

Lemma forwards_post B body_of (handler : B -> Settings -> gmap string string -> Task json)
    body settings inbound w request :
  forwards B body_of handler ->
  calls (handler body settings inbound w).2 = calls w ++ [request] ->
  req_json request = body_of body.
Proof.
  intros Hf. destruct (Hf body settings inbound w) as [[e ->]|(request' & -> & Hbody)].
  - no_post.
  - intros H. apply app_inv_head in H. by injection H as <-.
Qed.

(** ** Validation followed by the dump *)

Lemma member_None {A} k (ms : list (string * A)) : k ∉ ms.*1 -> member k ms = None.
Proof.
  induction ms as [|[k' x] ms IH]; [done|]. cbn. intros Hk.
  apply not_elem_of_cons in Hk as [Hne Hk].
  destruct (String.eqb_spec k' k); [congruence|]. by apply IH.
Qed.

Lemma member_Some_key {A} k (ms : list (string * A)) x : member k ms = Some x -> k ∈ ms.*1.
Proof.
  induction ms as [|[k' y] ms IH]; [done|]. cbn.
  destruct (String.eqb_spec k' k) as [->|_]; intros H.
  - apply elem_of_cons. by left.
  - apply elem_of_cons. right. by apply IH.
Qed.

Lemma without_nulls_object ms : without_nulls (JObject ms) = JObject (strip_nulls ms).
Proof. reflexivity. Qed.

Lemma dump_value_model m : dump_value (VModel m) = JObject (dump_fields m).
Proof. reflexivity. Qed.

Lemma validate_value_nested fs ms :
  validate_value (Nested fs) (JObject ms) = VModel <$> model_validate fs ms.
Proof. reflexivity. Qed.

Lemma validate_value_list t items :
  validate_value (ListOf t) (JArray items) = VList <$> validate_items t items.
Proof. reflexivity. Qed.

Lemma validate_items_cons t x items :
  validate_items t (x :: items) =
    match validate_value t x, validate_items t items with
    | Some v, Some vs => Some (v :: vs)
    | _, _ => None
    end.
Proof. reflexivity. Qed.

Lemma model_validate_cons attr alias t fs ms :
  model_validate ((attr, alias, t) :: fs) ms =
    match
      match member alias ms with
      | Some x => validate_value t x
      | None => Some VNone
      end,
      model_validate fs ms
    with
    | Some v, Some m => Some ((attr, alias, v) :: m)
    | _, _ => None
    end.
Proof. reflexivity. Qed.

Lemma fields_conform_cons attr alias t fs ms :
  fields_conform ((attr, alias, t) :: fs) ms =
    (match member alias ms with
     | Some x => conforms t x
     | None => True
     end /\ fields_conform fs ms).
Proof. reflexivity. Qed.

Lemma conforms_nested fs ms :
  conforms (Nested fs) (JObject ms) =
    (NoDup ms.*1 /\ NoDup (aliases fs) /\
     (forall k, k ∈ ms.*1 -> k ∈ aliases fs) /\ fields_conform fs ms).
Proof. reflexivity. Qed.

(** A member of the input, once the [null] members are gone. *)
Lemma member_strip_nulls k ms :
  NoDup ms.*1 ->
  member k (strip_nulls ms) =
    match member k ms with
    | Some JNull | None => None
    | Some x => Some (without_nulls x)
    end.
Proof.
  induction ms as [|[k' x] ms IH]; [done|]. cbn [fmap list_fmap fst].
  intros Hnd. apply NoDup_cons in Hnd as [Hk' Hnd].
  cbn [member]. destruct (String.eqb_spec k' k) as [->|Hne].
  - destruct x; cbn [strip_nulls member]; rewrite ?String.eqb_refl; try reflexivity.
    rewrite (IH Hnd), (member_None k ms Hk'). reflexivity.
  - destruct x; cbn [strip_nulls member];
      try (destruct (String.eqb_spec k' k); [congruence|]); by apply IH.
Qed.

(** Only a [null] is validated to [None]. *)
Lemma validate_value_None ty j : validate_value ty j = Some VNone -> j = JNull.
Proof.
  destruct ty, j; cbn; try done.
  - match goal with |- context [match ?e with _ => _ end] => destruct e end; done.
  - match goal with |- context [match ?e with _ => _ end] => destruct e end; done.
Qed.

Lemma dump_fields_keys k fs ms m :
  model_validate fs ms = Some m -> k ∉ aliases fs -> member k (dump_fields m) = None.
Proof.
  revert m. induction fs as [|[[attr alias] t] fs IH]; intros m.
  - intros [= <-]. done.
  - rewrite model_validate_cons. cbn [aliases map fst snd].
    destruct (match member alias ms with Some x => validate_value t x | None => Some VNone end)
      as [v|]; [|done].
    destruct (model_validate fs ms) as [m'|]; [|done].
    intros [= <-] Hk. apply not_elem_of_cons in Hk as [Hne Hk].
    specialize (IH m' eq_refl Hk).
    destruct v; cbn [dump_fields member];
      try (destruct (String.eqb_spec alias k); [congruence|]); exact IH.
Qed.

Lemma model_validate_same fs ms m :
  Forall (fun f => forall x v,
            validate_value f.2 x = Some v -> conforms f.2 x ->
            json_same (dump_value v) (without_nulls x)) fs ->
  model_validate fs ms = Some m ->
  NoDup ms.*1 -> NoDup (aliases fs) -> fields_conform fs ms ->
  forall k, k ∈ aliases fs ->
    option_Forall2 json_same (member k (dump_fields m)) (member k (strip_nulls ms)).
Proof.
  intros Hfields Hm Hms. revert m Hm.
  induction Hfields as [|[[attr alias] t] fs Hf Hfields IH]; intros m Hm Hfs Hconf k Hk.
  { by apply elem_of_nil in Hk. }
  rewrite model_validate_cons in Hm. cbn [aliases map fst snd] in Hfs, Hk.
  apply NoDup_cons in Hfs as [Halias Hfs].
  rewrite fields_conform_cons in Hconf. destruct Hconf as [Hx Hconf].
  destruct (match member alias ms with Some x => validate_value t x | None => Some VNone end)
    as [v|] eqn:Hv; [|done].
  destruct (model_validate fs ms) as [m'|] eqn:Hm'; [|done].
  injection Hm as <-.
  rewrite (member_strip_nulls k ms Hms).
  destruct (String.eqb_spec alias k) as [->|Hne].
  - (* the field asked for *)
    pose proof (dump_fields_keys k fs ms m' Hm' Halias) as Hrest.
    destruct (member k ms) as [x|] eqn:Hmem.
    + cbn [snd] in Hf. specialize (Hf x v Hv Hx).
      destruct v; cbn [dump_fields member]; rewrite ?String.eqb_refl.
      * apply validate_value_None in Hv as ->. rewrite Hrest. constructor.
      * destruct x; try (by constructor); by inversion Hf.
      * destruct x; try (by constructor); by inversion Hf.
      * destruct x; try (by constructor); by inversion Hf.
      * destruct x; try (by constructor); by inversion Hf.
      * destruct x; try (by constructor); by inversion Hf.
    + injection Hv as <-. cbn [dump_fields]. rewrite Hrest. constructor.
  - (* another field *)
    apply elem_of_cons in Hk as [->|Hk]; [done|].
    specialize (IH m' eq_refl Hfs Hconf k Hk).
    rewrite (member_strip_nulls k ms Hms) in IH.
    destruct v; cbn [dump_fields member];
      try (destruct (String.eqb_spec alias k); [congruence|]); exact IH.
Qed.

Lemma json_same_refl : forall j, json_same j j.
Proof.
  fix IH 1. intros [| | | |items|ms]; constructor.
  - revert items. fix IHitems 1. intros [|x items]; constructor.
    + exact (IH x).
    + exact (IHitems items).
  - intros k. revert ms. fix IHms 1. intros [|[k' x] ms]; [constructor|].
    cbn [member]. destruct (String.eqb k' k); [constructor; exact (IH x)|exact (IHms ms)].
Qed.

(** Validating the caller's JSON and dumping the result gives the caller's
    JSON back, with its [null] members gone. *)
Lemma validate_dump_same : forall ty j v,
  validate_value ty j = Some v -> conforms ty j ->
  json_same (dump_value v) (without_nulls j).
Proof.
  fix IH 1. intros [|t|fs] j v.
  - destruct j; cbn; intros [= <-] _; constructor.
  - destruct j as [| | | |items|]; try (cbn; intros [= <-] _; constructor); try done.
    rewrite validate_value_list. destruct (validate_items t items) as [vs|] eqn:Hvs; [|done].
    cbn [fmap option_fmap option_map]. intros [= <-]. cbn [dump_value without_nulls].
    intros Hall. constructor.
    revert items vs Hvs Hall. fix IHitems 1. intros [|x items] vs.
    + intros [= <-] _. constructor.
    + rewrite validate_items_cons. destruct (validate_value t x) as [v|] eqn:Hv; [|done].
      destruct (validate_items t items) as [vs'|] eqn:Hvs'; [|done].
      intros [= <-] [Hx Hall]. cbn [map]. constructor.
      * exact (IH t x v Hv Hx).
      * exact (IHitems items vs' Hvs' Hall).
  - destruct j as [| | | | |ms]; try (cbn; intros [= <-] _; constructor); try done.
    rewrite validate_value_nested. destruct (model_validate fs ms) as [m|] eqn:Hm; [|done].
    cbn [fmap option_fmap option_map]. intros [= <-].
    rewrite conforms_nested, dump_value_model, without_nulls_object.
    intros (Hms & Hfs & Hdecl & Hconf). constructor. intros k.
    destruct (decide (k ∈ aliases fs)) as [Hk|Hk].
    + apply (model_validate_same fs ms m); try done.
      clear -IH. revert fs. fix IHfs 1. intros [|[[attr alias] t] fs]; constructor.
      * exact (IH t).
      * exact (IHfs fs).
    + rewrite (dump_fields_keys k fs ms m Hm Hk), (member_strip_nulls k ms Hms).
      rewrite (member_None k ms); [constructor|]. intros Hin. by apply Hk, Hdecl.
Qed.


(** ** The two corrected claims about the routes *)

(** C7 (amended). Every POST endpoint takes its optional overrides from the
    headers [galaxy-ap-name], [galaxy-ap-password],
    [galaxy-client-session-id], [galaxy-client-type] and
    [galaxy-search-type], and from no other header. For a request the
    route lets through, with credentials that resolve, there is a POST, and
    every one of the five sent with a value goes out under its name with
    that value, in place of the configured or default one; on
    [/person-search] the search type has to be missing, ["Person"] or
    ["Teaser"]. *)
Theorem override_headers_read :
  Forall (fun route =>
            on_handler (fun B body_of handler =>
              proxies B body_of route.1 handler /\
              takes_overrides B body_of handler) route.2 /\
            on_route accepts_overrides route) routes.
Proof.
  apply Forall_and. split.
  - eapply Forall_impl; [apply routes_proxy|].
    intros [path [cls handler|handler]]; cbn; intros Hp;
      (split; [exact Hp|by eapply proxies_takes_overrides]).
  - eapply Forall_impl; [apply routes_proxy_exactly|].
    intros [path [cls handler|handler]]; unfold on_route; cbn [fst snd];
      apply proxies_exactly_accepts_overrides.
Qed.


End Resolver.

(** ** Runs on concrete inputs *)

(** The header set on a run where the name comes from the request header,
    the secret from the configuration, a client type is supplied and a
    session id is not. *)
Lemma outbound_header_set_witness :
  resolve_credential (Some "acct")
    (GALAXY_AP_NAME (configured "env-acct" "env-secret")) = Some "acct" /\
  resolve_credential None
    (GALAXY_AP_PASSWORD (configured "env-acct" "env-secret")) = Some "env-secret" /\
  let run := call_enformion_api
               (stub_upstream (Responded {| status_code := 200; text := "{}" |}))
               stub_json_loads
               "https://devapi.enformion.com/Phone/Enrich" "DevAPICallerID" (JObject [])
               (configured "env-acct" "env-secret")
               (Some "acct") None None (Some "web") empty_world in
  exists request,
    calls run.2 = calls empty_world ++ [request] /\
    dom (req_headers request)
    = ({[ "galaxy-ap-name"; "galaxy-ap-password"; "galaxy-search-type"; "Content-Type" ]}
       ∪ (if truthy_str None then {[ "galaxy-client-session-id" ]} else ∅)
       ∪ (if truthy_str (Some "web") then {[ "galaxy-client-type" ]} else ∅) : gset string) /\
    req_headers request !! "galaxy-ap-name" = Some "acct" /\
    req_headers request !! "galaxy-ap-password" = Some "env-secret" /\
    req_headers request !! "galaxy-search-type" = Some "DevAPICallerID" /\
    req_headers request !! "Content-Type" = Some "application/json" /\
    req_headers request !! "galaxy-client-session-id"
      = (if truthy_str None then None else None) /\
    req_headers request !! "galaxy-client-type"
      = (if truthy_str (Some "web") then Some "web" else None) /\
    (@None string = None -> "galaxy-client-session-id" ∉ dom (req_headers request)).
Proof.
  split; [reflexivity|]. split; [reflexivity|].
  apply (outbound_header_set
           (stub_upstream (Responded {| status_code := 200; text := "{}" |}))
           stub_json_loads
           "https://devapi.enformion.com/Phone/Enrich" "DevAPICallerID" (JObject [])
           (configured "env-acct" "env-secret")
           (Some "acct") None None (Some "web") empty_world "acct" "env-secret");
    reflexivity.
Defined.

(** The outcome on a run where the upstream answers 422. *)
Lemma outcome_classification_witness :
  resolve_credential None
    (GALAXY_AP_NAME (configured "env-acct" "env-secret")) = Some "env-acct" /\
  resolve_credential (Some "s3cret")
    (GALAXY_AP_PASSWORD (configured "env-acct" "env-secret")) = Some "s3cret" /\
  call_enformion_api
    (stub_upstream (Responded {| status_code := 422; text := "bad field" |}))
    stub_json_loads
    "https://devapi.enformion.com/Phone/Enrich" "DevAPICallerID" (JObject [])
    (configured "env-acct" "env-secret")
    None (Some "s3cret") None None empty_world
  = (Raise (InvalidRequestError "The request to the upstream service failed."),
     {| calls :=
          [ {| req_url := "https://devapi.enformion.com/Phone/Enrich";
               req_json := JObject [];
               req_headers := outbound_headers "env-acct" "s3cret" "DevAPICallerID" None None;
               req_timeout := 15 |} ];
        log :=
          [ (ERROR, "Invalid request to EnformionGO API. Status: 422, Response: bad field") ] |}).
Proof.
  split; [reflexivity|]. split; [reflexivity|].
  exact (outcome_classification
           (stub_upstream (Responded {| status_code := 422; text := "bad field" |}))
           stub_json_loads
           "https://devapi.enformion.com/Phone/Enrich" "DevAPICallerID" (JObject [])
           (configured "env-acct" "env-secret")
           None (Some "s3cret") None None empty_world "env-acct" "s3cret"
           eq_refl eq_refl).
Defined.

(** C7, as stated, fails twice over. With nothing configured, credentials
    sent as [x-account-name] and [x-account-secret] are not taken up and
    the call is refused for want of credentials, where the same credentials
    sent as [galaxy-ap-name] and [galaxy-ap-password] go out with the POST.
    And on [/person-search] a search type of the caller's own is not taken
    as an override: the request is refused. *)
Lemma override_headers_not_as_stated :
  caller_id upstream_ok stub_json_loads [] default_settings
    {[ "x-account-name" := "acct"; "x-account-secret" := "s3cret" ]} empty_world
  = (Raise (APIConnectionError credentials_message), empty_world) /\
  caller_id upstream_ok stub_json_loads [] default_settings
    {[ "galaxy-ap-name" := "acct"; "galaxy-ap-password" := "s3cret" ]} empty_world
  = (Return (JObject []),
     {| calls :=
          [ {| req_url := "https://devapi.enformion.com/Phone/Enrich";
               req_json := JObject [];
               req_headers := outbound_headers "acct" "s3cret" "DevAPICallerID" None None;
               req_timeout := 15 |} ];
        log := [] |}) /\
  person_search upstream_ok stub_json_loads [] (configured "env-acct" "env-secret")
    {[ "galaxy-search-type" := "Premium" ]} empty_world
  = (Raise (RequestValidationError "Premium"), empty_world).
Proof. repeat split. Qed.

(** The overrides on a run of [/caller-id]: nothing configured, the five
    headers all sent. *)
Lemma override_headers_read_witness :
  is_object (model_dump phone_without_type) /\
  search_type_accepted "/caller-id"
    (<["galaxy-search-type" := "Custom"]>
       (<["galaxy-client-type" := "web"]>
          (<["galaxy-client-session-id" := "s-1"]> credential_headers))) /\
  exists request,
    calls (caller_id upstream_ok stub_json_loads phone_without_type default_settings
             (<["galaxy-search-type" := "Custom"]>
                (<["galaxy-client-type" := "web"]>
                   (<["galaxy-client-session-id" := "s-1"]> credential_headers)))
             empty_world).2 = calls empty_world ++ [request] /\
    req_headers request !! "galaxy-ap-name" = Some "acct" /\
    req_headers request !! "galaxy-ap-password" = Some "s3cret" /\
    req_headers request !! "galaxy-search-type" = Some "Custom" /\
    req_headers request !! "galaxy-client-type" = Some "web" /\
    req_headers request !! "galaxy-client-session-id" = Some "s-1".
Proof.
  split; [by eexists|]. split; [discriminate|].
  pose proof (Forall_lookup_1 _ _ 1%nat _
                (override_headers_read upstream_ok stub_json_loads)
                eq_refl) as [_ H].
  destruct (H phone_without_type default_settings
              (<["galaxy-search-type" := "Custom"]>
                 (<["galaxy-client-type" := "web"]>
                    (<["galaxy-client-session-id" := "s-1"]> credential_headers)))
              empty_world "acct" "s3cret")
    as (request & Hcalls & Hn & Hp & Hk); [reflexivity|discriminate|reflexivity|reflexivity|].
  exists request. split; [exact Hcalls|]. split; [exact Hn|]. split; [exact Hp|].
  split; [|split]; apply Hk;
    first [reflexivity|apply list_elem_of_In; cbn; tauto].
Defined.



(** C9, as stated, fails on [/person-search]: a blank [galaxy-search-type]
    is refused as not being a member of the enum, where a missing one means
    ["Person"]. *)
Lemma person_search_blank_search_type :
  person_search (stub_upstream (Responded {| status_code := 200; text := "{}" |}))
    stub_json_loads [] (configured "env-acct" "env-secret")
    (<["galaxy-search-type" := EmptyString]> ∅) empty_world
  = (Raise (RequestValidationError EmptyString), empty_world) /\
  person_search (stub_upstream (Responded {| status_code := 200; text := "{}" |}))
    stub_json_loads [] (configured "env-acct" "env-secret")
    (delete "galaxy-search-type" ∅) empty_world
  = (Return (JObject []),
     {| calls :=
          [ {| req_url := "https://devapi.enformion.com/PersonSearch";
               req_json := JObject [];
               req_headers := outbound_headers "env-acct" "env-secret" "Person" None None;
               req_timeout := 15 |} ];
        log := [] |}) /\
  ~ blank_is_missing "galaxy-search-type" Model model_dump
      (person_search (stub_upstream (Responded {| status_code := 200; text := "{}" |}))
         stub_json_loads).
Proof.
  split; [reflexivity|]. split; [reflexivity|].
  intros H.
  specialize (H [] (configured "env-acct" "env-secret") ∅ empty_world).
  discriminate H.
Qed.

(** A request without credentials, on a server without credentials. *)
Lemma every_route_refuses_without_credentials_witness :
  (resolve_credential (Header ∅ "galaxy-ap-name") (GALAXY_AP_NAME default_settings) = None \/
   resolve_credential (Header ∅ "galaxy-ap-password")
     (GALAXY_AP_PASSWORD default_settings) = None) /\
  exists e,
    caller_id upstream_ok stub_json_loads phone_without_type default_settings ∅ empty_world
    = (Raise e, empty_world).
Proof.
  split; [by left|].
  pose proof (Forall_lookup_1 _ _ 1%nat _
                (every_route_refuses_without_credentials upstream_ok stub_json_loads)
                eq_refl) as H.
  apply H. by left.
Defined.

(** An empty caller-id request, credentials in the headers. *)
Lemma ungated_routes_post_any_body_witness :
  is_object (model_dump []) /\
  "/caller-id" <> "/contact-enrichment" /\
  "/caller-id" <> "/id-verification" /\
  resolve_credential (Header credential_headers "galaxy-ap-name")
    (GALAXY_AP_NAME default_settings) = Some "acct" /\
  resolve_credential (Header credential_headers "galaxy-ap-password")
    (GALAXY_AP_PASSWORD default_settings) = Some "s3cret" /\
  exists request,
    calls (caller_id upstream_ok stub_json_loads [] default_settings
             credential_headers empty_world).2 = calls empty_world ++ [request] /\
    req_json request = model_dump [] /\
    req_headers request !! "galaxy-ap-name" = Some "acct" /\
    req_headers request !! "galaxy-ap-password" = Some "s3cret".
Proof.
  split; [by eexists|].
  split; [discriminate|]. split; [discriminate|].
  split; [reflexivity|]. split; [reflexivity|].
  pose proof (Forall_lookup_1 _ _ 1%nat _
                (ungated_routes_post_any_body upstream_ok stub_json_loads)
                eq_refl) as H.
  apply H; [by eexists|discriminate|discriminate|discriminate|reflexivity|reflexivity].
Defined.

(** A name and a phone, through the contact-enrichment gate. *)
Lemma contact_enrichment_posts_two_members_witness :
  calls (contact_enrichment upstream_ok stub_json_loads name_and_phone default_settings
           credential_headers empty_world).2
  = calls empty_world ++
    [ {| req_url := "https://devapi.enformion.com/Contact/Enrich";
         req_json := JObject [("FirstName", JString "Ada"); ("Phone", JString "5550100")];
         req_headers := outbound_headers "acct" "s3cret" "DevAPIContactEnrich" None None;
         req_timeout := 15 |} ] /\
  (2 <= members (JObject [("FirstName", JString "Ada"); ("Phone", JString "5550100")]))%nat.
Proof.
  split; [reflexivity|].
  exact (contact_enrichment_posts_two_members upstream_ok stub_json_loads
           name_and_phone default_settings credential_headers empty_world _ eq_refl).
Defined.

(** An ssn and one phone, through the identity-verification gate. *)
Lemma id_verification_posts_two_members_witness :
  calls (id_verification upstream_ok stub_json_loads ssn_and_phone default_settings
           credential_headers empty_world).2
  = calls empty_world ++
    [ {| req_url := "https://devapi.enformion.com/Identity/Verify_Id";
         req_json := JObject [("Ssn", JString "123456789");
                              ("Phones", JArray [JString "5550100"])];
         req_headers := outbound_headers "acct" "s3cret" "DevAPIIDVerification" None None;
         req_timeout := 15 |} ] /\
  (2 <= members (JObject [("Ssn", JString "123456789");
                          ("Phones", JArray [JString "5550100"])]))%nat.
Proof.
  split; [reflexivity|].
  exact (id_verification_posts_two_members upstream_ok stub_json_loads
           ssn_and_phone default_settings credential_headers empty_world _ eq_refl).
Defined.

(** The name header of a caller-id POST. *)
Lemma every_route_sends_no_blank_header_witness :
  calls (caller_id upstream_ok stub_json_loads phone_without_type default_settings
           credential_headers empty_world).2
  = calls empty_world ++
    [ {| req_url := "https://devapi.enformion.com/Phone/Enrich";
         req_json := JObject [("Phone", JString "5550100")];
         req_headers := outbound_headers "acct" "s3cret" "DevAPICallerID" None None;
         req_timeout := 15 |} ] /\
  outbound_headers "acct" "s3cret" "DevAPICallerID" None None !! "galaxy-ap-name"
  = Some "acct" /\
  "acct" <> EmptyString.
Proof.
  split; [reflexivity|]. split; [reflexivity|].
  pose proof (Forall_lookup_1 _ _ 1%nat _
                (every_route_sends_no_blank_header upstream_ok stub_json_loads)
                eq_refl) as H.
  exact (H phone_without_type default_settings credential_headers empty_world _ eq_refl
           "galaxy-ap-name" "acct" eq_refl).
Defined.

(** A caller-id POST under the default URLs and configured credentials. *)
Lemma every_route_posts_to_default_host_witness :
  calls (caller_id upstream_ok stub_json_loads phone_without_type
           (set_credentials default_settings (Some "acct") (Some "s3cret"))
           ∅ empty_world).2
  = calls empty_world ++
    [ {| req_url := "https://devapi.enformion.com/Phone/Enrich";
         req_json := JObject [("Phone", JString "5550100")];
         req_headers := outbound_headers "acct" "s3cret" "DevAPICallerID" None None;
         req_timeout := 15 |} ] /\
  String.prefix "https://devapi.enformion.com/"
    "https://devapi.enformion.com/Phone/Enrich" = true.
Proof.
  split; [reflexivity|].
  pose proof (Forall_lookup_1 _ _ 1%nat _
                (every_route_posts_to_default_host upstream_ok stub_json_loads)
                eq_refl) as H.
  exact (H phone_without_type (Some "acct") (Some "s3cret") ∅ empty_world _ eq_refl).
Defined.

(** A caller-id request that the upstream answers with 200. *)
Lemma every_route_relays_upstream_body_witness :
  (caller_id upstream_ok stub_json_loads phone_without_type default_settings
     credential_headers empty_world).1 = Return (JObject []) /\
  exists request response,
    calls (caller_id upstream_ok stub_json_loads phone_without_type default_settings
             credential_headers empty_world).2 = calls empty_world ++ [request] /\
    upstream_ok (calls empty_world) request = Responded response /\
    200 <= status_code response <= 299 /\
    stub_json_loads (text response) = Some (JObject []).
Proof.
  split; [reflexivity|].
  pose proof (Forall_lookup_1 _ _ 1%nat _
                (every_route_relays_upstream_body upstream_ok stub_json_loads)
                eq_refl) as H.
  exact (H phone_without_type default_settings credential_headers empty_world
           (JObject []) eq_refl).
Defined.
